(** * Amazon-Fashion-Reviews: the JSONL reader, the file probe and the
      streaming batch uploader

    A shallow embedding of [scripts/jsonl_processor.py] (class
    [JSONLProcessor]: [read_jsonl], [get_file_info]) and of
    [scripts/upload_streaming.py] ([upload_in_batches]), followed by the
    properties of the specification that concern them.

    Conventions of the embedding.
    - Python [int] is [Z]; [//] and [%] are [Z.div] and [Z.modulo], which
      floor and take the sign of the divisor exactly as Python does.
    - A text line is a [string]; every character stands for the code point
      of the same number (0..255).
    - A file is what the code observes of it: the size that
      [os.path.getsize] reports and the sequence of lines that iterating
      the text file object yields.
    - [json.loads] is a parameter [json_loads : string -> option Json];
      [None] stands for [json.JSONDecodeError].  General theorems hold for
      every decoder; concrete runs use [sample_loads], which agrees with
      [json.loads] on the lines that occur in them.
    - Exceptions and side effects of [upload_in_batches] (console reports,
      object-store writes, sleeping, a pending SIGINT) are threaded through
      a state-and-exception monad. *)

From Stdlib Require Import ZArith List String Ascii Bool Lia.
From Stdlib Require Import DecimalString DecimalN.
Import ListNotations.

Local Open Scope string_scope.
Local Open Scope list_scope.
Local Open Scope Z_scope.

(** ** Python built-ins used by the scripts *)

Module Py.

(** [str.isspace] on the code points below 256. *)
Definition is_space (c : ascii) : bool :=
  let n := N_of_ascii c in
  ((9 <=? n) && (n <=? 13) || (28 <=? n) && (n <=? 32)
   || (n =? 133) || (n =? 160))%N.

Fixpoint lstrip (s : string) : string :=
  match s with
  | EmptyString => EmptyString
  | String c r => if is_space c then lstrip r else s
  end.

Fixpoint rstrip (s : string) : string :=
  match s with
  | EmptyString => EmptyString
  | String c r =>
      match rstrip r with
      | EmptyString => if is_space c then EmptyString else String c EmptyString
      | r' => String c r'
      end
  end.

(** [s.strip()] *)
Definition strip (s : string) : string := lstrip (rstrip s).

(** Truth value of a [str]: non-empty. *)
Definition truthy (s : string) : bool :=
  match s with EmptyString => false | String _ _ => true end.

(** [str.lower] on the code points below 256: A-Z and the Latin-1
    capitals (U+00C0..U+00DE without U+00D7) move up by 32. *)
Definition lower_char (c : ascii) : ascii :=
  let n := N_of_ascii c in
  if ((65 <=? n) && (n <=? 90)
      || (192 <=? n) && (n <=? 222) && negb (n =? 215))%N
  then ascii_of_N (n + 32) else c.

Fixpoint lower (s : string) : string :=
  match s with
  | EmptyString => EmptyString
  | String c r => String (lower_char c) (lower r)
  end.

(** [s.replace(old, '')] for a non-empty [old]: every non-overlapping
    occurrence, leftmost first, is removed.  [skip] counts the characters
    of the occurrence being removed that are still to be dropped. *)
Fixpoint remove_aux (old : string) (skip : nat) (s : string) : string :=
  match s with
  | EmptyString => EmptyString
  | String c r =>
      match skip with
      | S k => remove_aux old k r
      | O => if prefix old s
             then remove_aux old (Nat.pred (String.length old)) r
             else String c (remove_aux old O r)
      end
  end.

Definition remove_all (old s : string) : string := remove_aux old O s.

(** [os.path.basename]: what follows the last slash.  [cur] collects the
    component being read. *)
Fixpoint basename_aux (cur s : string) : string :=
  match s with
  | EmptyString => cur
  | String c r =>
      if Ascii.eqb c "/"%char then basename_aux EmptyString r
      else basename_aux (cur ++ String c EmptyString)%string r
  end.

Definition basename (path : string) : string := basename_aux EmptyString path.

(** Decimal digits of a natural number. *)
Definition digits (n : N) : string := NilEmpty.string_of_uint (N.to_uint n).

(** [k] zeros. *)
Fixpoint zeros (k : nat) : string :=
  match k with
  | O => EmptyString
  | S k' => String "0"%char (zeros k')
  end.

(** Left padding with zeros up to [width] characters. *)
Definition zfill (width : nat) (s : string) : string :=
  (zeros (width - String.length s) ++ s)%string.

(** [format(n, '03d')]: sign-aware zero padding to three characters. *)
Definition fmt_03d (n : Z) : string :=
  if n <? 0 then ("-" ++ zfill 2 (digits (Z.to_N (- n))))%string
  else zfill 3 (digits (Z.to_N n)).

(** [len] *)
Definition len {A : Type} (l : list A) : Z := Z.of_nat (List.length l).

(** [round(p / q, 2)] for integers [p >= 0], [q > 0], as a number of
    hundredths: the quotient is rounded to the nearest hundredth, ties
    to the even one.  With [q = 2^20] and [p < 2^53] the float quotient
    is exact and [round] rounds its exact value this way. *)
Definition round2_hundredths (p q : Z) : Z :=
  let n := 100 * p in
  let k := n / q in
  let r := 2 * (n mod q) in
  if r <? q then k
  else if q <? r then k + 1
  else if Z.even k then k else k + 1.

End Py.

(** ** Data *)

(** A decoded JSON document, as [json.loads] builds it. *)
#[warnings="-register-all"]
Inductive Json : Type :=
| JNull
| JBool (b : bool)
| JInt (n : Z)
| JFloat (literal : string)
| JString (s : string)
| JArray (items : list Json)
| JObject (fields : list (string * Json)).

(** Exceptions that the modelled code can meet. *)
Inductive exn : Type :=
| KeyboardInterrupt
| ZeroDivisionError
| FileNotFoundError
| JSONDecodeError
| AttributeError
| UploadError.

Inductive result (A : Type) : Type :=
| Ok (a : A)
| Raise (e : exn).

Arguments Ok {A} a.
Arguments Raise {A} e.

(** A file on disk. *)
Record file : Type := mkFile {
  f_size : Z;                (* os.path.getsize, in bytes *)
  f_lines : list string      (* the lines that [for line in f] yields *)
}.

Definition filesystem : Type := string -> option file.

(** The dictionary that [get_file_info] returns.  [size_mb] is held in
    hundredths of a mebibyte. *)
Record file_info : Type := mkInfo {
  info_filepath : string;
  info_exists : bool;
  info_size_mb : Z;
  info_line_count : Z;
  info_sample_keys : list string
}.

(** ** scripts/jsonl_processor.py *)

Section JSONLProcessor.

Variable json_loads : string -> option Json.

(** [if line.strip():] *)
Definition nonblank (line : string) : bool := Py.truthy (Py.strip line).

(** [limit and i >= limit]: [None] and [0] are falsy. *)
Definition limit_reached (limit : option Z) (i : Z) : bool :=
  match limit with
  | None => false
  | Some l => negb (l =? 0) && (l <=? i)
  end.

(** The loop of [read_jsonl] from line index [i] on.  [data] is the list
    being filled, [warned] the 1-based numbers of the lines for which a
    warning has been logged. *)
Fixpoint read_loop (limit : option Z) (i : Z) (lines : list string)
         (data : list Json) (warned : list Z) : list Json * list Z :=
  match lines with
  | [] => (data, warned)
  | line :: rest =>
      if limit_reached limit i then (data, warned)          (* break *)
      else if nonblank line then
        match json_loads line with
        | Some v => read_loop limit (i + 1) rest (data ++ [v]) warned
        | None => read_loop limit (i + 1) rest data (warned ++ [i + 1])
        end
      else read_loop limit (i + 1) rest data warned
  end.

(** [JSONLProcessor.read_jsonl(filepath, limit)] *)
Definition read_jsonl (fs : filesystem) (filepath : string)
           (limit : option Z) : result (list Json) :=
  match fs filepath with
  | None => Raise FileNotFoundError
  | Some f => Ok (fst (read_loop limit 0 (f_lines f) [] []))
  end.

(** The warnings that the same call logs. *)
Definition read_jsonl_warnings (fs : filesystem) (filepath : string)
           (limit : option Z) : list Z :=
  match fs filepath with
  | None => []
  | Some f => snd (read_loop limit 0 (f_lines f) [] [])
  end.

(** The sampling step of [get_file_info]: the keys of the first line. *)
Definition sample_first_line (lines : list string) : result (list string) :=
  let first_line := hd "" lines in                  (* f.readline() *)
  if nonblank first_line then
    match json_loads first_line with
    | None => Raise JSONDecodeError
    | Some (JObject fields) => Ok (map fst fields)  (* list(sample.keys()) *)
    | Some _ => Raise AttributeError                (* no .keys() *)
    end
  else Ok [].

(** [sum(1 for line in f if line.strip())] *)
Definition count_nonblank (lines : list string) : Z :=
  Py.len (filter nonblank lines).

(** [JSONLProcessor.get_file_info(filepath)].  An exception inside the
    [try] leaves the fields not yet assigned at their initial values. *)
Definition get_file_info (fs : filesystem) (filepath : string) : file_info :=
  match fs filepath with
  | None => mkInfo filepath false 0 0 []
  | Some f =>
      let size_mb := Py.round2_hundredths (f_size f) (1024 * 1024) in
      match sample_first_line (f_lines f) with
      | Ok keys => mkInfo filepath true size_mb (count_nonblank (f_lines f)) keys
      | Raise _ => mkInfo filepath true size_mb 0 []
      end
  end.

(** The records of a file: the decoded non-blank lines, in file order. *)
Definition decode_line (line : string) : list Json :=
  if nonblank line then
    match json_loads line with Some v => [v] | None => [] end
  else [].

Definition valid_records (lines : list string) : list Json :=
  flat_map decode_line lines.

End JSONLProcessor.

(** ** scripts/upload_streaming.py *)

(** What [upload_in_batches] prints, as far as it carries run data. *)
Inductive message : Type :=
| MsgNotFound                                   (* "Error: File not found" *)
| MsgFile (total_lines : Z)                     (* "Total lines: n" *)
| MsgPlan (num_batches : Z)                     (* "Will create: n batches" *)
| MsgCancelled                                  (* "Upload cancelled." *)
| MsgBatch (batch_num num_batches records : Z)  (* "Batch i/n", "Processing k records" *)
| MsgProgress (line_num total_lines : Z)        (* "Total processed: i/n lines (p%)" *)
| MsgUploading (s3_key : string)                (* "Uploading to: ..." *)
| MsgUploaded (batch_num records : Z)           (* "Uploaded batch i (k records)" *)
| MsgWaiting (delay_seconds : Z)                (* "Waiting d seconds before next batch" *)
| MsgCountdown (i : Z)                          (* "Next batch in i seconds" *)
| MsgFinalBatch (batch_num num_batches records : Z)
| MsgUploadedFinal (records : Z)                (* "Uploaded final batch (k records)" *)
| MsgComplete                                   (* "Streaming Upload Complete!" *)
| MsgTotalBatches (batch_num : Z)               (* "Total batches uploaded: n" *)
| MsgTotalRecords (total_uploaded : Z)          (* "Total records uploaded: n" *)
| MsgAllInS3                                    (* "All batches are now in S3!" *)
| MsgInterrupted (batch_num total_uploaded : Z)
    (* "Upload interrupted by user", "Uploaded n batches so far (k records)" *)
| MsgError (e : exn)                            (* "Error during upload: e" *)
| MsgBeforeError (batch_num total_uploaded : Z).
    (* "Uploaded n batches before error (k records)" *)

(** What a run does to the world, in order. *)
Inductive event : Type :=
| Printed (m : message)
| Put (s3_key : string) (records : list Json)   (* put_object stored the batch *)
| Sleep.                                        (* time.sleep(1) returned *)

(** What the world does to a run. *)
Record env : Type := mkEnv {
  env_fs : filesystem;
  env_input : string;                           (* the answer typed at the prompt *)
  env_now : string;                             (* datetime.now().strftime(...) *)
  env_put_ok : string -> list Json -> bool;     (* does the upload succeed *)
  env_sigint : option nat                       (* points passed before Ctrl-C *)
}.

(** The local variables of the [try] block, the output so far and the
    distance to the pending interrupt. *)
Record state : Type := mkState {
  batch_num : Z;
  total_uploaded : Z;
  batch_data : list Json;
  line_num : Z;
  out : list event;
  sigint : option nat
}.

(** Computations that read and write the state and may raise. *)
Definition M (A : Type) : Type := state -> result A * state.

Definition ret {A : Type} (a : A) : M A := fun s => (Ok a, s).

Definition bind {A B : Type} (m : M A) (k : A -> M B) : M B :=
  fun s => match m s with
           | (Ok a, s') => k a s'
           | (Raise e, s') => (Raise e, s')
           end.

Definition raise {A : Type} (e : exn) : M A := fun s => (Raise e, s).

Notation "x <- m ;; k" := (bind m (fun x => k))
  (at level 61, m at next level, right associativity).
Notation "m ;; k" := (bind m (fun _ => k))
  (at level 61, right associativity).

Definition get : M state := fun s => (Ok s, s).

Definition modify (f : state -> state) : M unit := fun s => (Ok tt, f s).

Definition emit (e : event) : M unit :=
  modify (fun s => mkState (batch_num s) (total_uploaded s) (batch_data s)
                           (line_num s) (out s ++ [e]) (sigint s)).

Definition print (m : message) : M unit := emit (Printed m).

(** An interruption point: the place where a pending Ctrl-C, if it is due,
    turns into [KeyboardInterrupt]. *)
Definition tick : M unit :=
  fun s => match sigint s with
           | None => (Ok tt, s)
           | Some O => (Raise KeyboardInterrupt, s)
           | Some (S k) =>
               (Ok tt, mkState (batch_num s) (total_uploaded s) (batch_data s)
                               (line_num s) (out s) (Some k))
           end.

(** [a / b] on numbers: raises when [b] is zero; the quotient itself is
    only displayed. *)
Definition true_div (a b : Z) : M unit :=
  if b =? 0 then raise ZeroDivisionError else ret tt.

Definition set_batch_num (n : Z) : M unit :=
  modify (fun s => mkState n (total_uploaded s) (batch_data s)
                           (line_num s) (out s) (sigint s)).

Definition set_total_uploaded (n : Z) : M unit :=
  modify (fun s => mkState (batch_num s) n (batch_data s)
                           (line_num s) (out s) (sigint s)).

Definition set_batch_data (l : list Json) : M unit :=
  modify (fun s => mkState (batch_num s) (total_uploaded s) l
                           (line_num s) (out s) (sigint s)).

Definition set_line_num (n : Z) : M unit :=
  modify (fun s => mkState (batch_num s) (total_uploaded s) (batch_data s)
                           n (out s) (sigint s)).

(** The key of batch [batch_num]:
    [f'{s3_prefix}{filename}_batch{batch_num:03d}_{timestamp}.parquet'] *)
Definition s3_key_of (s3_prefix filename timestamp : string) (batch_num : Z)
  : string :=
  (s3_prefix ++ filename ++ "_batch" ++ Py.fmt_03d batch_num ++ "_"
   ++ timestamp ++ ".parquet")%string.

(** [os.path.basename(filepath).replace('.jsonl', '')] *)
Definition filename_of (filepath : string) : string :=
  Py.remove_all ".jsonl" (Py.basename filepath).

Section UploadStreaming.

Variable json_loads : string -> option Json.
Variable e : env.

Variables (batch_size delay_seconds : Z) (s3_prefix : string).
Variables (total_lines num_batches : Z) (filename timestamp : string).

(** [S3Handler.upload_dataframe(pd.DataFrame(batch_data), s3_key)]:
    builds the frame, serialises it and stores it, or raises.  The frame
    has one row per record, so [len(df)] is [len(batch_data)]. *)
Definition upload_dataframe (s3_key : string) (records : list Json) : M unit :=
  if env_put_ok e s3_key records then emit (Put s3_key records)
  else raise UploadError.

(** The countdown: [for i in range(delay_seconds, 0, -1)], here with
    [n] iterations left. *)
Fixpoint countdown (n : nat) : M unit :=
  match n with
  | O => ret tt
  | S k =>
      print (MsgCountdown (Z.of_nat n)) ;;
      tick ;;
      emit Sleep ;;
      countdown k
  end.

(** Lines 89-124: a full batch is sealed, uploaded and followed by the
    pacing wait. *)
Definition upload_full_batch : M unit :=
  s <- get ;;
  set_batch_num (batch_num s + 1) ;;
  s <- get ;;
  print (MsgBatch (batch_num s) num_batches (Py.len (batch_data s))) ;;
  true_div (line_num s) total_lines ;;
  print (MsgProgress (line_num s) total_lines) ;;
  let s3_key := s3_key_of s3_prefix filename timestamp (batch_num s) in
  print (MsgUploading s3_key) ;;
  tick ;;
  upload_dataframe s3_key (batch_data s) ;;
  tick ;;
  set_total_uploaded (total_uploaded s + Py.len (batch_data s)) ;;
  print (MsgUploaded (batch_num s) (Py.len (batch_data s))) ;;
  set_batch_data [] ;;
  if line_num s <? total_lines then
    print (MsgWaiting delay_seconds) ;;
    countdown (Z.to_nat delay_seconds)
  else ret tt.

(** Line 88: [if len(batch_data) >= batch_size:] *)
Definition check_batch : M unit :=
  s <- get ;;
  if batch_size <=? Py.len (batch_data s) then upload_full_batch else ret tt.

(** Lines 80-124: the body of the loop for one line. *)
Definition process_line (line : string) : M unit :=
  if nonblank line then
    match json_loads line with
    | Some v =>
        s <- get ;;
        set_batch_data (batch_data s ++ [v]) ;;
        set_line_num (line_num s + 1) ;;
        check_batch
    | None => ret tt                                   (* continue *)
    end
  else check_batch.

(** Line 79: [for line in f:] *)
Fixpoint scan (lines : list string) : M unit :=
  match lines with
  | [] => ret tt
  | line :: rest => tick ;; process_line line ;; scan rest
  end.

(** Lines 127-144: the records left over at the end of the file. *)
Definition upload_final_batch : M unit :=
  s <- get ;;
  match batch_data s with
  | [] => ret tt
  | _ :: _ =>
      set_batch_num (batch_num s + 1) ;;
      s <- get ;;
      print (MsgFinalBatch (batch_num s) num_batches (Py.len (batch_data s))) ;;
      let s3_key := s3_key_of s3_prefix filename timestamp (batch_num s) in
      print (MsgUploading s3_key) ;;
      tick ;;
      upload_dataframe s3_key (batch_data s) ;;
      tick ;;
      set_total_uploaded (total_uploaded s + Py.len (batch_data s)) ;;
      print (MsgUploadedFinal (Py.len (batch_data s)))
  end.

(** Lines 146-157: the closing report. *)
Definition summary : M unit :=
  s <- get ;;
  print MsgComplete ;;
  print (MsgTotalBatches (batch_num s)) ;;
  print (MsgTotalRecords (total_uploaded s)) ;;
  true_div 1 (batch_num s) ;;                 (* total_time/batch_num *)
  print MsgAllInS3.

(** Lines 75-157: the body of the [try]. *)
Definition try_body (lines : list string) : M unit :=
  scan lines ;;
  upload_final_batch ;;
  summary.

End UploadStreaming.

(** Lines 69-71 and 76-77: the variables before the loop. *)
Definition initial_state (e : env) : state :=
  mkState 0 0 [] 0 [] (env_sigint e).

(** [upload_in_batches(filepath, batch_size, delay_seconds, s3_prefix)]:
    whether the call returns or raises, and everything it did. *)
Definition upload_in_batches (json_loads : string -> option Json) (e : env)
           (filepath : string) (batch_size delay_seconds : Z)
           (s3_prefix : string) : result unit * list event :=
  match env_fs e filepath with
  | None => (Ok tt, [Printed MsgNotFound])
  | Some f =>
      let info := get_file_info json_loads (env_fs e) filepath in
      let total_lines := info_line_count info in
      if batch_size =? 0                                     (* line 55 *)
      then (Raise ZeroDivisionError, [Printed (MsgFile total_lines)])
      else
        let num_batches :=
          total_lines / batch_size
          + (if 0 <? total_lines mod batch_size then 1 else 0) in
        let plan := [Printed (MsgFile total_lines);
                     Printed (MsgPlan num_batches)] in
        if negb (Py.lower (Py.strip (env_input e)) =? "y")%string
        then (Ok tt, plan ++ [Printed MsgCancelled])
        else
          let timestamp := env_now e in
          let filename := filename_of filepath in
          match try_body json_loads e batch_size delay_seconds s3_prefix
                         total_lines num_batches filename timestamp
                         (f_lines f) (initial_state e) with
          | (Ok _, s) => (Ok tt, plan ++ out s)
          | (Raise KeyboardInterrupt, s) =>
              (Ok tt,
               plan ++ out s
               ++ [Printed (MsgInterrupted (batch_num s) (total_uploaded s))])
          | (Raise err, s) =>
              (Ok tt,
               plan ++ out s
               ++ [Printed (MsgError err);
                   Printed (MsgBeforeError (batch_num s) (total_uploaded s))])
          end
  end.

(** ** Observations on a run *)

(** The batches stored, in upload order. *)
Fixpoint uploads (t : list event) : list (string * list Json) :=
  match t with
  | [] => []
  | Put k r :: t' => (k, r) :: uploads t'
  | _ :: t' => uploads t'
  end.

Definition uploaded_batches (t : list event) : list (list Json) :=
  map snd (uploads t).

Definition uploaded_keys (t : list event) : list string :=
  map fst (uploads t).

(** The batch numbers [1 .. m]. *)
Definition batch_numbers (m : nat) : list Z := map Z.of_nat (seq 1 m).

(** The number of records stored so far. *)
Definition records_of (t : list event) : Z :=
  Py.len (List.concat (uploaded_batches t)).

(** The pacing waits announced and the seconds slept. *)
Definition is_waiting (ev : event) : bool :=
  match ev with Printed (MsgWaiting _) => true | _ => false end.

Definition is_sleep (ev : event) : bool :=
  match ev with Sleep => true | _ => false end.

Definition waits (t : list event) : Z := Py.len (filter is_waiting t).

Definition sleeps (t : list event) : Z := Py.len (filter is_sleep t).

(** ** The specification's reading of three notions

    These definitions follow the words of the specification, not the
    code; they are what the code is compared with. *)

(** "ceil(n / b) when n > 0, and zero when n = 0". *)
Definition spec_batch_count (n b : Z) : Z :=
  if n =? 0 then 0 else (n + b - 1) / b.

(** "the first L valid records of the file". *)
Definition spec_first_valid_records (json_loads : string -> option Json)
           (limit : Z) (lines : list string) : list Json :=
  firstn (Z.to_nat limit) (valid_records json_loads lines).

(** "filename with its extension stripped": the name up to its last dot,
    a leading dot not counting, as [os.path.splitext] does.  [before_last_dot]
    gives the part before the last dot of a string that has one. *)
Fixpoint before_last_dot (s : string) : option string :=
  match s with
  | EmptyString => None
  | String c r =>
      match before_last_dot r with
      | Some p => Some (String c p)
      | None => if Ascii.eqb c "."%char then Some EmptyString else None
      end
  end.

Definition spec_strip_extension (name : string) : string :=
  match name with
  | EmptyString => EmptyString
  | String c r =>
      match before_last_dot r with
      | Some p => String c p
      | None => name
      end
  end.

Definition spec_s3_key (s3_prefix filepath timestamp : string) (k : Z) : string :=
  s3_key_of s3_prefix (spec_strip_extension (Py.basename filepath)) timestamp k.

(** ** Sample inputs *)

Definition newline : string := String (ascii_of_nat 10) EmptyString.
Definition dquote : string := String (ascii_of_nat 34) EmptyString.

(** The text of a record with one field, [id], of value [n], and its
    decoding. *)
Definition id_open : string := ("{" ++ dquote ++ "id" ++ dquote ++ ": ")%string.

Definition id_text (n : N) : string := (id_open ++ Py.digits n ++ "}")%string.

Definition id_record (n : N) : Json := JObject [("id", JInt (Z.of_N n))].

Definition drop (n : nat) (s : string) : string :=
  substring n (String.length s - n) s.

(** The number [n] such that [s] is [id_text n], if there is one. *)
Definition id_of_text (s : string) : option N :=
  if prefix id_open s then
    let body := drop (String.length id_open) s in
    let num := substring 0 (String.length body - 1) body in
    match NilEmpty.uint_of_string num with
    | Some d =>
        let n := N.of_uint d in
        if (s =? id_text n)%string then Some n else None
    | None => None
    end
  else None.

(** A decoder that agrees with [json.loads] on the lines of the sample
    files: [{}] is the empty object, [[]] the empty array, [id_text n]
    the record [id_record n], and the other sample lines are not JSON. *)
Definition sample_loads (line : string) : option Json :=
  let s := Py.strip line in
  if (s =? "{}")%string then Some (JObject [])
  else if (s =? "[]")%string then Some (JArray [])
  else option_map id_record (id_of_text s).

Definition line_obj : string := ("{}" ++ newline)%string.
Definition line_arr : string := ("[]" ++ newline)%string.
Definition line_bad : string := ("not json" ++ newline)%string.
Definition line_id (n : N) : string := (id_text n ++ newline)%string.

(** The file that holds [lines], each character taking one byte. *)
Definition file_of (lines : list string) : file :=
  mkFile (Z.of_nat (String.length (String.concat "" lines))) lines.

(** A file system with one file. *)
Definition single_file (path : string) (lines : list string) : filesystem :=
  fun p => if (p =? path)%string then Some (file_of lines) else None.

(** An operator who confirms, a store that accepts every batch, a clock
    that reads 2024-01-01 12:00:00. *)
Definition sample_env (path : string) (lines : list string)
           (sig : option nat) : env :=
  mkEnv (single_file path lines) "y" "20240101_120000" (fun _ _ => true) sig.

(** The sample file of the reader: a blank line, two records around a
    line that is not JSON, and a last record. *)
Definition reader_lines : list string :=
  [newline; line_id 1; line_bad; line_id 2; line_id 3].

(** The sample source of the uploader and the key of its batch [k]. *)
Definition sample_path : string := "data/reviews.jsonl".

Definition sample_key (k : Z) : string :=
  s3_key_of "raw/data/" "reviews" "20240101_120000" k.

(** A confirmed run on the sample source holding [lines], with the store
    accepting every batch and Ctrl-C arriving as [sig] says. *)
Definition sample_run (lines : list string) (sig : option nat)
           (batch_size delay_seconds : Z) : result unit * list event :=
  upload_in_batches sample_loads (sample_env sample_path lines sig)
                    sample_path batch_size delay_seconds "raw/data/".

(** ** Weakest preconditions for the monad *)

(** [wp m Q X s]: run from [s], [m] either returns [a] in a state that
    satisfies [Q a] or raises [err] in a state that satisfies [X err]. *)
Definition wp {A : Type} (m : M A) (Q : A -> state -> Prop)
           (X : exn -> state -> Prop) (s : state) : Prop :=
  match m s with
  | (Ok a, s') => Q a s'
  | (Raise err, s') => X err s'
  end.

(** The state [s] with another distance to the interrupt. *)
Definition with_sigint (s : state) (k : option nat) : state :=
  mkState (batch_num s) (total_uploaded s) (batch_data s) (line_num s) (out s) k.

(** The state [s] after one more event. *)
Definition with_event (s : state) (ev : event) : state :=
  mkState (batch_num s) (total_uploaded s) (batch_data s) (line_num s)
          (out s ++ [ev]) (sigint s).

(** ** Invariants of a run *)

Section Invariants.

Variables (s3_prefix filename timestamp : string).

(** The keys stored so far are those of the batch numbers 1, 2, ... in
    this order. *)
Definition numbered (t : list event) : Prop :=
  uploaded_keys t
  = map (s3_key_of s3_prefix filename timestamp)
        (batch_numbers (List.length (uploads t))).

(** Between two batches the counters agree with what has been stored. *)
Definition consistent (s : state) : Prop :=
  numbered (out s)
  /\ batch_num s = Py.len (uploads (out s))
  /\ total_uploaded s = records_of (out s).

(** Inside the upload of a batch the counters may be one step apart. *)
Definition in_flight (s : state) : Prop :=
  numbered (out s)
  /\ Py.len (uploads (out s)) <= batch_num s <= Py.len (uploads (out s)) + 1
  /\ total_uploaded s <= records_of (out s).

End Invariants.

(** The invariant of the scan in a run that nothing disturbs: no
    interrupt is pending, the batches stored and the buffer hold the
    records of the lines [done] read so far, every stored batch is full,
    and a wait of [delay_seconds] sleeps has followed each stored batch
    that left [line_num] below [total_lines]. *)
Section Filling.

Variable json_loads : string -> option Json.
Variables (batch_size delay_seconds total_lines : Z).

(** The waits due after the first [full] batches. *)
Definition waits_due (full : nat) : Z :=
  Py.len (filter (fun j => j * batch_size <? total_lines) (batch_numbers full)).

Definition filling (done : list string) (s : state) : Prop :=
  sigint s = None
  /\ List.concat (uploaded_batches (out s)) ++ batch_data s
     = valid_records json_loads done
  /\ Forall (fun r => Py.len r = batch_size) (uploaded_batches (out s))
  /\ line_num s = Py.len (valid_records json_loads done)
  /\ waits (out s) = waits_due (List.length (uploads (out s)))
  /\ sleeps (out s) = waits (out s) * Z.max 0 delay_seconds.

End Filling.

(** "every batch except possibly the last contains exactly batch_size
    records while the last contains between 1 and batch_size". *)
Definition well_batched (batch_size : Z) (batches : list (list Json)) : Prop :=
  Forall (fun r => Py.len r = batch_size) (removelast batches)
  /\ Forall (fun r => 1 <= Py.len r <= batch_size) batches.

(** What the trace of a completed scan shows: the stored batches are the
    valid records of the file cut into batches, as many as the
    specification counts, and the pacing is as [waits_due] says. *)
Definition finished (json_loads : string -> option Json)
           (batch_size delay_seconds total_lines : Z) (lines : list string)
           (t : list event) : Prop :=
  let n := Py.len (valid_records json_loads lines) in
  List.concat (uploaded_batches t) = valid_records json_loads lines
  /\ well_batched batch_size (uploaded_batches t)
  /\ Py.len (uploads t) = spec_batch_count n batch_size
  /\ waits t = waits_due batch_size total_lines (Z.to_nat (n / batch_size))
  /\ sleeps t = waits t * Z.max 0 delay_seconds.

(** Two traces that show the same uploads and the same pacing. *)
Definition same_observations (t t' : list event) : Prop :=
  uploads t' = uploads t /\ waits t' = waits t /\ sleeps t' = sleeps t.

(** Each string is below the next one in the order of [String.compare]. *)
Fixpoint strictly_sorted (l : list string) : bool :=
  match l with
  | [] => true
  | a :: r =>
      match r with
      | [] => true
      | b :: _ => (a <? b)%string && strictly_sorted r
      end
  end.

(** ** More of scripts/jsonl_processor.py *)

(** [JSONLProcessor.preview_jsonl(filepath, num_lines)] *)
Definition preview_jsonl (json_loads : string -> option Json)
           (fs : filesystem) (filepath : string) (num_lines : Z)
  : result (list Json) :=
  read_jsonl json_loads fs filepath (Some num_lines).

(** The lines that the loop of [read_jsonl] goes through before it ends
    or breaks: all of them under a falsy bound, the first [limit] under a
    positive one, none under a negative one. *)
Definition lines_read (limit : option Z) (lines : list string) : list string :=
  match limit with
  | None => lines
  | Some l => if l =? 0 then lines else firstn (Z.to_nat l) lines
  end.

(** The 1-based numbers, counted from [i + 1], of the lines that are
    neither blank nor JSON. *)
Fixpoint malformed_from (json_loads : string -> option Json) (i : Z)
         (lines : list string) : list Z :=
  match lines with
  | [] => []
  | line :: rest =>
      (if nonblank line
       then match json_loads line with Some _ => [] | None => [i + 1] end
       else [])
      ++ malformed_from json_loads (i + 1) rest
  end.

(** * Properties *)

(** ** The reader *)

Section ReaderFacts.

Variable json_loads : string -> option Json.

Lemma valid_records_app (l1 l2 : list string) :
  valid_records json_loads (l1 ++ l2)
  = valid_records json_loads l1 ++ valid_records json_loads l2.
Proof. unfold valid_records. apply flat_map_app. Qed.

Lemma valid_records_cons (line : string) (rest : list string) :
  valid_records json_loads (line :: rest)
  = decode_line json_loads line ++ valid_records json_loads rest.
Proof. reflexivity. Qed.

(** While the bound does not stop the loop, one turn of it appends the
    decoding of the line. *)
Lemma read_loop_step (limit : option Z) (i : Z) (line : string)
      (rest : list string) (data : list Json) (warned : list Z) :
  limit_reached limit i = false ->
  exists warned',
    read_loop json_loads limit i (line :: rest) data warned
    = read_loop json_loads limit (i + 1) rest
                (data ++ decode_line json_loads line) warned'.
Proof.
  intros Hlim. cbn [read_loop]. rewrite Hlim. unfold decode_line.
  destruct (nonblank line).
  - destruct (json_loads line).
    + now exists warned.
    + rewrite app_nil_r. now eexists.
  - rewrite app_nil_r. now exists warned.
Qed.

(** A falsy bound never stops the loop: all records are returned. *)
Lemma read_loop_unbounded (limit : option Z) (lines : list string) :
  (forall i, limit_reached limit i = false) ->
  forall i data warned,
    fst (read_loop json_loads limit i lines data warned)
    = data ++ valid_records json_loads lines.
Proof.
  intros Hlim. induction lines as [|line rest IH]; intros i data warned.
  - cbn. now rewrite app_nil_r.
  - destruct (read_loop_step limit i line rest data warned (Hlim i))
      as [warned' ->].
    rewrite IH, valid_records_cons. now rewrite app_assoc.
Qed.

(** A bound [limit >= 1] stops the loop at line index [limit]: from index
    [i] on, the records of the next [limit - i] lines are returned. *)
Lemma read_loop_bounded (limit : Z) (lines : list string) :
  1 <= limit ->
  forall i data warned,
    0 <= i <= limit ->
    fst (read_loop json_loads (Some limit) i lines data warned)
    = data ++ valid_records json_loads (firstn (Z.to_nat (limit - i)) lines).
Proof.
  intros Hpos. induction lines as [|line rest IH]; intros i data warned Hi.
  - rewrite firstn_nil. cbn. now rewrite app_nil_r.
  - destruct (Z.eq_dec i limit) as [->|Hne].
    + rewrite Z.sub_diag. cbn [Z.to_nat firstn read_loop limit_reached].
      replace (negb (limit =? 0)) with true
        by (symmetry; apply negb_true_iff, Z.eqb_neq; lia).
      rewrite Z.leb_refl. cbn. now rewrite app_nil_r.
    + assert (Hlim : limit_reached (Some limit) i = false).
      { cbn. apply andb_false_iff. right. apply Z.leb_gt. lia. }
      destruct (read_loop_step (Some limit) i line rest data warned Hlim)
        as [warned' ->].
      rewrite IH by lia.
      replace (Z.to_nat (limit - i)) with (S (Z.to_nat (limit - (i + 1))))
        by lia.
      cbn [firstn]. rewrite valid_records_cons. now rewrite app_assoc.
Qed.

End ReaderFacts.

(** C10: [read_jsonl] with [limit = 0] behaves as with no limit: it
    returns every valid record of the file (and raises the same
    file-not-found condition when the file is absent); the list returned
    is empty only when the file has no valid record. *)
Theorem read_jsonl_limit_zero_reads_all
        (json_loads : string -> option Json) (fs : filesystem)
        (filepath : string) :
  read_jsonl json_loads fs filepath (Some 0)
  = read_jsonl json_loads fs filepath None
  /\ read_jsonl json_loads fs filepath (Some 0)
     = match fs filepath with
       | None => Raise FileNotFoundError
       | Some f => Ok (valid_records json_loads (f_lines f))
       end
  /\ match fs filepath with
     | None => True
     | Some f => valid_records json_loads (f_lines f) = []
                 \/ read_jsonl json_loads fs filepath (Some 0) <> Ok []
     end.
Proof.
  unfold read_jsonl. destruct (fs filepath) as [f|]; [|now repeat split].
  rewrite !read_loop_unbounded by reflexivity. cbn [app].
  repeat split.
  destruct (valid_records json_loads (f_lines f)); [now left|right].
  intros H. discriminate H.
Qed.

(** With [limit = 0] the sample file yields its three records, not an
    empty list. *)
Example read_jsonl_limit_zero_sample :
  read_jsonl sample_loads (single_file "a.jsonl" reader_lines) "a.jsonl" (Some 0)
  = Ok [id_record 1; id_record 2; id_record 3].
Proof. reflexivity. Qed.

(** A negative bound is truthy and at most every index: nothing is read. *)
Example read_jsonl_negative_limit_sample :
  read_jsonl sample_loads (single_file "a.jsonl" reader_lines) "a.jsonl" (Some (-1))
  = Ok [].
Proof. reflexivity. Qed.

(** C4, as the code has it: for [limit >= 1], [read_jsonl] returns the
    valid records found among the first [limit] lines of the file; blank
    and malformed lines count toward the bound, and no later line has any
    influence on the result. *)
Theorem read_jsonl_limit_bounds_lines
        (json_loads : string -> option Json) (fs : filesystem)
        (filepath : string) (f : file) (limit : Z) :
  fs filepath = Some f ->
  1 <= limit ->
  read_jsonl json_loads fs filepath (Some limit)
  = Ok (valid_records json_loads (firstn (Z.to_nat limit) (f_lines f))).
Proof.
  intros Hf Hpos. unfold read_jsonl. rewrite Hf.
  rewrite read_loop_bounded by lia. now rewrite Z.sub_0_r.
Qed.

Lemma read_jsonl_limit_bounds_lines_witness :
  1 <= 4
  /\ read_jsonl sample_loads (single_file "a.jsonl" reader_lines) "a.jsonl" (Some 4)
     = Ok [id_record 1; id_record 2].
Proof.
  split; [lia|].
  apply (read_jsonl_limit_bounds_lines
           sample_loads (single_file "a.jsonl" reader_lines) "a.jsonl"
           (file_of reader_lines) 4).
  - reflexivity.
  - lia.
Defined.

(** C4, as the specification words it, fails: on the sample file and
    [limit = 2] the first two valid records exist, but the call returns
    only the one found in the first two lines. *)
Lemma read_jsonl_limit_not_first_valid :
  spec_first_valid_records sample_loads 2 reader_lines
  = [id_record 1; id_record 2]
  /\ read_jsonl sample_loads (single_file "a.jsonl" reader_lines) "a.jsonl" (Some 2)
     = Ok [id_record 1]
  /\ read_jsonl sample_loads (single_file "a.jsonl" reader_lines) "a.jsonl" (Some 2)
     <> Ok (spec_first_valid_records sample_loads 2 reader_lines).
Proof.
  split; [reflexivity|]. split; [reflexivity|].
  vm_compute. intros H. discriminate H.
Qed.

(** ** The file probe *)

(** When the sampling of the first line succeeds, the probe counts the
    non-blank lines. *)
Lemma get_file_info_counts_when_sampled
      (json_loads : string -> option Json) (fs : filesystem)
      (filepath : string) (f : file) (keys : list string) :
  fs filepath = Some f ->
  sample_first_line json_loads (f_lines f) = Ok keys ->
  get_file_info json_loads fs filepath
  = mkInfo filepath true (Py.round2_hundredths (f_size f) (1024 * 1024))
           (count_nonblank (f_lines f)) keys.
Proof.
  intros Hf Hs. unfold get_file_info. now rewrite Hf, Hs.
Qed.

(** When it fails, the count stays at its initial value. *)
Lemma get_file_info_zero_when_sampling_fails
      (json_loads : string -> option Json) (fs : filesystem)
      (filepath : string) (f : file) (err : exn) :
  fs filepath = Some f ->
  sample_first_line json_loads (f_lines f) = Raise err ->
  info_line_count (get_file_info json_loads fs filepath) = 0.
Proof.
  intros Hf Hs. unfold get_file_info. now rewrite Hf, Hs.
Qed.

(** A first line that is JSON but not an object stops the probe in the
    same way: an array has no [keys]. *)
Example get_file_info_array_first_line :
  sample_first_line sample_loads [line_arr; line_id 1] = Raise AttributeError
  /\ info_line_count
       (get_file_info sample_loads (single_file "a.jsonl" [line_arr; line_id 1])
                      "a.jsonl") = 0.
Proof. split; reflexivity. Qed.

(** C6 at a file whose first line is not JSON: the file exists and has
    two non-blank lines, yet the probe reports [line_count = 0]. *)
Theorem get_file_info_malformed_first_line :
  let fs := single_file "a.jsonl" [line_bad; line_id 1] in
  info_exists (get_file_info sample_loads fs "a.jsonl") = true
  /\ count_nonblank [line_bad; line_id 1] = 2
  /\ info_line_count (get_file_info sample_loads fs "a.jsonl") = 0.
Proof. repeat split. Qed.

(** ** Reasoning about monadic code *)

Section WpRules.

Context {A B : Type}.
Implicit Types (Q : A -> state -> Prop) (X : exn -> state -> Prop).

Lemma wp_ret (a : A) Q X s : Q a s -> wp (ret a) Q X s.
Proof. exact (fun H => H). Qed.

Lemma wp_raise (err : exn) Q X s : X err s -> wp (raise err) Q X s.
Proof. exact (fun H => H). Qed.

Lemma wp_bind (m : M A) (k : A -> M B) (R : B -> state -> Prop) X s :
  wp m (fun a s' => wp (k a) R X s') X s -> wp (bind m k) R X s.
Proof.
  unfold wp, bind. destruct (m s) as [[a|err] s']; exact (fun H => H).
Qed.

Lemma wp_mono (m : M A) Q Q' X X' s :
  wp m Q X s ->
  (forall a s', Q a s' -> Q' a s') ->
  (forall err s', X err s' -> X' err s') ->
  wp m Q' X' s.
Proof.
  unfold wp. destruct (m s) as [[a|err] s']; intros H HQ HX; auto.
Qed.

Lemma wp_conj (m : M A) Q1 Q2 X1 X2 s :
  wp m Q1 X1 s ->
  wp m Q2 X2 s ->
  wp m (fun a s' => Q1 a s' /\ Q2 a s') (fun err s' => X1 err s' /\ X2 err s') s.
Proof.
  unfold wp. destruct (m s) as [[a|err] s']; now split.
Qed.

End WpRules.

Lemma wp_get (Q : state -> state -> Prop) X s : Q s s -> wp get Q X s.
Proof. exact (fun H => H). Qed.

Lemma wp_modify (f : state -> state) (Q : unit -> state -> Prop) X s :
  Q tt (f s) -> wp (modify f) Q X s.
Proof. exact (fun H => H). Qed.

Lemma wp_emit (ev : event) (Q : unit -> state -> Prop) X s :
  Q tt (with_event s ev) -> wp (emit ev) Q X s.
Proof. exact (fun H => H). Qed.

Lemma wp_print (m : message) (Q : unit -> state -> Prop) X s :
  Q tt (with_event s (Printed m)) -> wp (print m) Q X s.
Proof. exact (fun H => H). Qed.

Lemma wp_true_div (a b : Z) (Q : unit -> state -> Prop) X s :
  (b = 0 -> X ZeroDivisionError s) ->
  (b <> 0 -> Q tt s) ->
  wp (true_div a b) Q X s.
Proof.
  intros H0 H1. unfold true_div. destruct (Z.eqb_spec b 0); [apply H0|apply H1]; auto.
Qed.

(** At an interruption point the run either stops with
    [KeyboardInterrupt] or goes on, the interrupt being one point nearer. *)
Lemma wp_tick (Q : unit -> state -> Prop) X s :
  X KeyboardInterrupt s ->
  (forall k, Q tt (with_sigint s k)) ->
  wp tick Q X s.
Proof.
  intros HX HQ. unfold wp, tick. destruct (sigint s) as [[|k]|] eqn:Hs; auto.
  - apply HQ.
  - specialize (HQ None). destruct s; cbn in *. now subst.
Qed.

Ltac wp_simpl :=
  cbn [with_event with_sigint batch_num total_uploaded batch_data line_num
       out sigint].

Ltac wp_simpl_all :=
  cbn [with_event with_sigint batch_num total_uploaded batch_data line_num
       out sigint] in *.

Ltac wp_step :=
  lazymatch goal with
  | |- wp (bind _ _) _ _ _ => apply wp_bind
  | |- wp (ret _) _ _ _ => apply wp_ret
  | |- wp (raise _) _ _ _ => apply wp_raise
  | |- wp get _ _ _ => apply wp_get
  | |- wp (print _) _ _ _ => apply wp_print
  | |- wp (emit _) _ _ _ => apply wp_emit
  | |- wp (set_batch_num _) _ _ _ => apply wp_modify
  | |- wp (set_total_uploaded _) _ _ _ => apply wp_modify
  | |- wp (set_batch_data _) _ _ _ => apply wp_modify
  | |- wp (set_line_num _) _ _ _ => apply wp_modify
  | |- wp (modify _) _ _ _ => apply wp_modify
  end; wp_simpl.

Ltac wp_steps := repeat wp_step.

(** ** Facts about traces *)

Lemma uploads_app (t1 t2 : list event) :
  uploads (t1 ++ t2) = uploads t1 ++ uploads t2.
Proof.
  induction t1 as [|[m|k r|] t1 IH]; cbn; [reflexivity|..]; now rewrite ?IH.
Qed.

Lemma uploads_print (t : list event) (m : message) :
  uploads (t ++ [Printed m]) = uploads t.
Proof. rewrite uploads_app. apply app_nil_r. Qed.

Lemma uploads_sleep (t : list event) : uploads (t ++ [Sleep]) = uploads t.
Proof. rewrite uploads_app. apply app_nil_r. Qed.

Lemma uploads_put (t : list event) (k : string) (r : list Json) :
  uploads (t ++ [Put k r]) = uploads t ++ [(k, r)].
Proof. now rewrite uploads_app. Qed.


Lemma batch_numbers_S (m : nat) :
  batch_numbers (S m) = batch_numbers m ++ [Z.of_nat m + 1].
Proof.
  unfold batch_numbers. rewrite seq_S, map_app. cbn [map]. do 2 f_equal. lia.
Qed.

Lemma records_of_put (t : list event) (k : string) (r : list Json) :
  records_of (t ++ [Put k r]) = records_of t + Py.len r.
Proof.
  unfold records_of, uploaded_batches, Py.len. rewrite uploads_put, map_app, concat_app.
  cbn. rewrite app_nil_r, length_app. lia.
Qed.

Lemma records_of_print (t : list event) (m : message) :
  records_of (t ++ [Printed m]) = records_of t.
Proof. unfold records_of, uploaded_batches. now rewrite uploads_print. Qed.

Lemma records_of_sleep (t : list event) :
  records_of (t ++ [Sleep]) = records_of t.
Proof. unfold records_of, uploaded_batches. now rewrite uploads_sleep. Qed.

Ltac trace_simpl :=
  repeat first [ rewrite uploads_print | rewrite uploads_sleep
               | rewrite uploads_put | rewrite records_of_print
               | rewrite records_of_sleep | rewrite records_of_put ].

(** ** Invariants of the upload loop, whatever the world does *)

Section UploaderInvariants.

Variable json_loads : string -> option Json.
Variable e : env.
Variables (batch_size delay_seconds : Z) (s3_prefix : string).
Variables (total_lines num_batches : Z) (filename timestamp : string).

#[local] Abbreviation Consistent := (consistent s3_prefix filename timestamp).
#[local] Abbreviation In_flight := (in_flight s3_prefix filename timestamp).
#[local] Abbreviation Numbered := (numbered s3_prefix filename timestamp).

Lemma wp_upload_dataframe (k : string) (r : list Json)
      (Q : unit -> state -> Prop) X s :
  X UploadError s ->
  Q tt (with_event s (Put k r)) ->
  wp (upload_dataframe e k r) Q X s.
Proof.
  intros HX HQ. unfold upload_dataframe.
  destruct (env_put_ok e k r); [now apply wp_emit | now apply wp_raise].
Qed.

Lemma numbered_print (t : list event) (m : message) :
  Numbered t -> Numbered (t ++ [Printed m]).
Proof. unfold numbered, uploaded_keys. now rewrite uploads_print. Qed.

Lemma numbered_sleep (t : list event) :
  Numbered t -> Numbered (t ++ [Sleep]).
Proof. unfold numbered, uploaded_keys. now rewrite uploads_sleep. Qed.

(** Storing the batch whose number is one more than the number of batches
    stored keeps the keys Numbered. *)
Lemma numbered_put (t : list event) (n : Z) (r : list Json) :
  Numbered t ->
  n = Py.len (uploads t) + 1 ->
  Numbered (t ++ [Put (s3_key_of s3_prefix filename timestamp n) r]).
Proof.
  unfold numbered, uploaded_keys, Py.len. intros H ->.
  rewrite uploads_put, map_app, length_app, H. cbn [map List.length fst].
  rewrite Nat.add_1_r, batch_numbers_S, map_app. reflexivity.
Qed.

Lemma consistent_in_flight (s : state) : Consistent s -> In_flight s.
Proof. unfold consistent, in_flight. intuition lia. Qed.

Ltac inv_solve :=
  repeat match goal with
         | H : consistent _ _ _ _ |- _ =>
             destruct H as (? & ? & ?)
         | H : in_flight _ _ _ _ |- _ =>
             destruct H as (? & ? & ?)
         end;
  unfold consistent, in_flight; wp_simpl;
  repeat match goal with
         | |- _ /\ _ => split
         | |- Numbered (_ ++ [Printed _]) => apply numbered_print
         | |- Numbered (_ ++ [Sleep]) => apply numbered_sleep
         | |- Numbered (_ ++ [Put _ _]) => apply numbered_put
         end;
  trace_simpl; unfold Py.len in *; rewrite ?length_app; cbn [List.length];
  try assumption; try lia.

(** The countdown changes no counter and stores nothing. *)
Lemma countdown_consistent (n : nat) (s : state) :
  Consistent s ->
  wp (countdown n) (fun _ => Consistent) (fun _ => In_flight) s.
Proof.
  revert s. induction n as [|n IH]; intros s H.
  - now apply wp_ret.
  - cbn [countdown]. wp_steps. apply wp_tick; [inv_solve|intros k].
    wp_steps. apply IH. inv_solve.
Qed.

Lemma upload_full_batch_consistent (s : state) :
  Consistent s ->
  wp (upload_full_batch e delay_seconds s3_prefix total_lines num_batches
                        filename timestamp)
     (fun _ => Consistent) (fun _ => In_flight) s.
Proof.
  intros H. unfold upload_full_batch. wp_steps.
  apply wp_true_div; intros Htl; [inv_solve|]. wp_steps.
  apply wp_tick; [inv_solve|intros k1]. wp_steps.
  apply wp_upload_dataframe; [inv_solve|]. wp_steps.
  apply wp_tick; [inv_solve|intros k2]. wp_steps.
  destruct (line_num s <? total_lines).
  - wp_steps. apply countdown_consistent. inv_solve.
  - wp_steps. inv_solve.
Qed.

Lemma check_batch_consistent (s : state) :
  Consistent s ->
  wp (check_batch e batch_size delay_seconds s3_prefix total_lines
                  num_batches filename timestamp)
     (fun _ => Consistent) (fun _ => In_flight) s.
Proof.
  intros H. unfold check_batch. wp_steps.
  destruct (batch_size <=? Py.len (batch_data s)).
  - now apply upload_full_batch_consistent.
  - now apply wp_ret.
Qed.

Lemma process_line_consistent (line : string) (s : state) :
  Consistent s ->
  wp (process_line json_loads e batch_size delay_seconds s3_prefix
                   total_lines num_batches filename timestamp line)
     (fun _ => Consistent) (fun _ => In_flight) s.
Proof.
  intros H. unfold process_line. destruct (nonblank line).
  - destruct (json_loads line) as [v|].
    + wp_steps. apply check_batch_consistent. inv_solve.
    + now apply wp_ret.
  - now apply check_batch_consistent.
Qed.

Lemma scan_consistent (lines : list string) (s : state) :
  Consistent s ->
  wp (scan json_loads e batch_size delay_seconds s3_prefix total_lines
           num_batches filename timestamp lines)
     (fun _ => Consistent) (fun _ => In_flight) s.
Proof.
  revert s. induction lines as [|line rest IH]; intros s H.
  - now apply wp_ret.
  - cbn [scan]. wp_steps. apply wp_tick; [inv_solve|intros k]. wp_steps.
    eapply wp_mono.
    + apply process_line_consistent. inv_solve.
    + intros [] s' H'. wp_steps. now apply IH.
    + auto.
Qed.

Lemma upload_final_batch_consistent (s : state) :
  Consistent s ->
  wp (upload_final_batch e s3_prefix num_batches filename timestamp)
     (fun _ => Consistent) (fun _ => In_flight) s.
Proof.
  intros H. unfold upload_final_batch. wp_steps.
  destruct (batch_data s) as [|r0 rs] eqn:Hb; [now apply wp_ret|].
  wp_steps. apply wp_tick; [inv_solve|intros k1]. wp_steps.
  apply wp_upload_dataframe; [inv_solve|]. wp_steps.
  apply wp_tick; [inv_solve|intros k2]. wp_steps. inv_solve.
Qed.

Lemma summary_consistent (s : state) :
  Consistent s ->
  wp summary (fun _ => Consistent) (fun _ => In_flight) s.
Proof.
  intros H. unfold summary. wp_steps.
  apply wp_true_div; intros Hb; [inv_solve|]. wp_steps. inv_solve.
Qed.

Lemma try_body_in_flight (lines : list string) (s : state) :
  Consistent s ->
  wp (try_body json_loads e batch_size delay_seconds s3_prefix total_lines
               num_batches filename timestamp lines)
     (fun _ => In_flight) (fun _ => In_flight) s.
Proof.
  intros H. unfold try_body. wp_steps.
  eapply wp_mono; [now apply scan_consistent| |auto].
  intros [] s1 H1. wp_steps.
  eapply wp_mono; [now apply upload_final_batch_consistent| |auto].
  intros [] s2 H2.
  eapply wp_mono; [now apply summary_consistent| |auto].
  intros [] s3 H3. now apply consistent_in_flight.
Qed.

End UploaderInvariants.

(** ** Facts about strings and keys *)

Lemma string_length_app (a b : string) :
  String.length (a ++ b) = (String.length a + String.length b)%nat.
Proof. induction a as [|c a IH]; cbn; [reflexivity|now rewrite IH]. Qed.

Lemma string_app_inv_head (p a b : string) :
  (p ++ a)%string = (p ++ b)%string -> a = b.
Proof.
  induction p as [|c p IH]; cbn; intros H; [exact H|].
  injection H as H'. now apply IH.
Qed.

Lemma string_app_inv_tail (a b r : string) :
  (a ++ r)%string = (b ++ r)%string -> a = b.
Proof.
  revert b. induction a as [|c a IH]; intros [|d b] H; cbn in H.
  - reflexivity.
  - apply (f_equal String.length) in H. cbn in H.
    rewrite string_length_app in H. lia.
  - apply (f_equal String.length) in H. cbn in H.
    rewrite string_length_app in H. lia.
  - injection H as -> H'. f_equal. now apply IH.
Qed.

Lemma ascii_compare_refl (c : ascii) : Ascii.compare c c = Eq.
Proof. apply N.compare_refl. Qed.

Lemma string_compare_app_head (p a b : string) :
  String.compare (p ++ a) (p ++ b) = String.compare a b.
Proof.
  induction p as [|c p IH]; cbn; [reflexivity|].
  now rewrite ascii_compare_refl.
Qed.

Lemma string_compare_app_tail_lt (a b r : string) :
  String.length a = String.length b ->
  String.compare a b = Lt ->
  String.compare (a ++ r) (b ++ r) = Lt.
Proof.
  revert b. induction a as [|c a IH]; intros [|d b] Hlen Hlt;
    cbn in *; try discriminate.
  destruct (Ascii.compare c d); try assumption.
  apply IH; [lia|assumption].
Qed.

(** The number that a string of digits denotes. *)
Lemma digits_value (k : nat) (n : N) :
  option_map N.of_uint (NilEmpty.uint_of_string (Py.zeros k ++ Py.digits n))
  = Some n.
Proof.
  induction k as [|k IH].
  - cbn [Py.zeros String.append]. unfold Py.digits.
    rewrite NilEmpty.usu. cbn. now rewrite DecimalN.Unsigned.of_to.
  - cbn [Py.zeros String.append NilEmpty.uint_of_string].
    destruct (NilEmpty.uint_of_string (Py.zeros k ++ Py.digits n));
      [|discriminate IH].
    cbn in *. exact IH.
Qed.

Lemma fmt_03d_inj (a b : Z) :
  0 <= a -> 0 <= b -> Py.fmt_03d a = Py.fmt_03d b -> a = b.
Proof.
  intros Ha Hb. unfold Py.fmt_03d, Py.zfill.
  destruct (Z.ltb_spec a 0) as [|_]; [lia|].
  destruct (Z.ltb_spec b 0) as [|_]; [lia|].
  intros Heq.
  apply (f_equal (fun s => option_map N.of_uint (NilEmpty.uint_of_string s)))
    in Heq.
  rewrite !digits_value in Heq. injection Heq as Heq'. lia.
Qed.

Lemma s3_key_of_inj (s3_prefix filename timestamp : string) (a b : Z) :
  0 <= a -> 0 <= b ->
  s3_key_of s3_prefix filename timestamp a
  = s3_key_of s3_prefix filename timestamp b ->
  a = b.
Proof.
  intros Ha Hb H. unfold s3_key_of in H.
  do 3 apply string_app_inv_head in H.
  apply string_app_inv_tail in H. now apply fmt_03d_inj.
Qed.

(** Up to 999 the padded numbers have three digits and grow in string
    order with the number. *)
Lemma fmt_03d_next (n : nat) :
  (n < 999)%nat ->
  String.length (Py.fmt_03d (Z.of_nat n)) = String.length (Py.fmt_03d (Z.of_nat (S n)))
  /\ String.compare (Py.fmt_03d (Z.of_nat n)) (Py.fmt_03d (Z.of_nat (S n))) = Lt.
Proof.
  intros Hn.
  assert (Hall : forallb (fun n =>
            (String.length (Py.fmt_03d (Z.of_nat n))
             =? String.length (Py.fmt_03d (Z.of_nat (S n))))%nat
            && match String.compare (Py.fmt_03d (Z.of_nat n))
                                    (Py.fmt_03d (Z.of_nat (S n))) with
               | Lt => true
               | _ => false
               end) (seq 0 999) = true) by (vm_compute; reflexivity).
  rewrite forallb_forall in Hall. specialize (Hall n).
  rewrite in_seq, andb_true_iff, Nat.eqb_eq in Hall.
  destruct Hall as [Hlen Hcmp]; [lia|]. split; [exact Hlen|].
  destruct (String.compare _ _); try discriminate; reflexivity.
Qed.

Lemma s3_key_of_next (s3_prefix filename timestamp : string) (n : nat) :
  (n < 999)%nat ->
  (s3_key_of s3_prefix filename timestamp (Z.of_nat n)
   <? s3_key_of s3_prefix filename timestamp (Z.of_nat (S n)))%string = true.
Proof.
  intros Hn. destruct (fmt_03d_next n Hn) as [Hlen Hcmp].
  unfold String.ltb, s3_key_of. rewrite !string_compare_app_head.
  now rewrite string_compare_app_tail_lt.
Qed.

Lemma strictly_sorted_keys (s3_prefix filename timestamp : string) (n : nat) :
  forall start len : nat,
    (start + n <= 1000)%nat ->
    strictly_sorted
      (firstn n (map (s3_key_of s3_prefix filename timestamp)
                     (map Z.of_nat (seq start len)))) = true.
Proof.
  induction n as [|n IH]; intros start len Hb; [reflexivity|].
  destruct len as [|len]; [reflexivity|].
  cbn [seq map firstn]. specialize (IH (S start) len).
  destruct n as [|n]; [reflexivity|].
  destruct len as [|len]; [reflexivity|].
  cbn [seq map firstn] in *. cbn [strictly_sorted].
  rewrite s3_key_of_next by lia. cbn [andb]. apply IH. lia.
Qed.

Lemma NoDup_keys (s3_prefix filename timestamp : string) (m : nat) :
  NoDup (map (s3_key_of s3_prefix filename timestamp) (batch_numbers m)).
Proof.
  apply NoDup_map_NoDup_ForallPairs.
  - intros a b Ha Hb. unfold batch_numbers in Ha, Hb.
    apply in_map_iff in Ha as (i & <- & _). apply in_map_iff in Hb as (j & <- & _).
    apply s3_key_of_inj; lia.
  - unfold batch_numbers. apply NoDup_map_NoDup_ForallPairs.
    + intros i j _ _. lia.
    + apply seq_NoDup.
Qed.

(** ** Keys of a run *)

Lemma numbered_same_uploads (s3_prefix filename timestamp : string)
      (t t' : list event) :
  uploads t' = uploads t ->
  numbered s3_prefix filename timestamp t ->
  numbered s3_prefix filename timestamp t'.
Proof. unfold numbered, uploaded_keys. now intros ->. Qed.

Lemma initial_state_consistent (s3_prefix filename timestamp : string)
      (e : env) :
  consistent s3_prefix filename timestamp (initial_state e).
Proof. repeat split. Qed.

(** Whatever the file, the operator, the store and the moment of an
    interrupt, the keys stored by a run are those of the batch numbers
    1, 2, ... in this order. *)
Lemma upload_in_batches_numbered
      (json_loads : string -> option Json) (e : env) (filepath : string)
      (batch_size delay_seconds : Z) (s3_prefix : string) :
  numbered s3_prefix (filename_of filepath) (env_now e)
           (snd (upload_in_batches json_loads e filepath batch_size
                                   delay_seconds s3_prefix)).
Proof.
  unfold upload_in_batches.
  destruct (env_fs e filepath) as [f|]; [|reflexivity].
  destruct (batch_size =? 0); [reflexivity|].
  destruct (negb _); [reflexivity|].
  match goal with
  | |- context [try_body ?a ?b ?c ?d ?p ?tl ?nb ?fn ?ts ?ls ?s] =>
      pose proof (try_body_in_flight a b c d p tl nb fn ts ls s
                    (initial_state_consistent p fn ts e)) as H;
      unfold wp in H;
      destruct (try_body a b c d p tl nb fn ts ls s) as [[[]|err] s']
  end.
  - destruct H as (H & _). revert H. apply numbered_same_uploads. reflexivity.
  - destruct H as (H & _). revert H. apply numbered_same_uploads.
    destruct err; cbn [snd]; rewrite !uploads_app; cbn; now rewrite app_nil_r.
Qed.

(** C7, as the code has it: the key of the k-th stored batch is the
    prefix, the base name of the source path with every occurrence of
    [.jsonl] removed, [_batch], k padded with zeros to at least three
    digits, [_], the timestamp read once for the run, and [.parquet]; the
    keys of a run are pairwise distinct, and over the first 999 batches
    they increase strictly in string order. *)
Theorem upload_keys_numbered_and_distinct
        (json_loads : string -> option Json) (e : env) (filepath : string)
        (batch_size delay_seconds : Z) (s3_prefix : string) :
  let t := snd (upload_in_batches json_loads e filepath batch_size
                                  delay_seconds s3_prefix) in
  uploaded_keys t
  = map (s3_key_of s3_prefix
                   (Py.remove_all ".jsonl" (Py.basename filepath))
                   (env_now e))
        (batch_numbers (List.length (uploads t)))
  /\ NoDup (uploaded_keys t)
  /\ strictly_sorted (firstn 999 (uploaded_keys t)) = true.
Proof.
  intros t.
  pose proof (upload_in_batches_numbered json_loads e filepath batch_size
                delay_seconds s3_prefix) as H.
  fold t in H. unfold numbered, filename_of in H. split; [exact H|].
  rewrite H. split.
  - apply NoDup_keys.
  - unfold batch_numbers. now apply strictly_sorted_keys.
Qed.

(** A run of three batches and its keys. *)
Example upload_keys_sample :
  uploaded_keys
    (snd (upload_in_batches
            sample_loads
            (sample_env "data/reviews.jsonl"
                        [line_id 1; line_id 2; line_id 3; line_id 4; line_id 5]
                        None)
            "data/reviews.jsonl" 2 20 "raw/data/"))
  = ["raw/data/reviews_batch001_20240101_120000.parquet";
     "raw/data/reviews_batch002_20240101_120000.parquet";
     "raw/data/reviews_batch003_20240101_120000.parquet"].
Proof. vm_compute. reflexivity. Qed.

(** C7, as the specification words it, fails on a source named
    [reviews.json] with 1000 records and batches of one record: the name
    keeps its extension in the keys, and the key of batch 1000 is below
    the key of batch 999 in string order. *)
Lemma upload_keys_extension_and_order :
  let keys :=
    uploaded_keys
      (snd (upload_in_batches
              sample_loads
              (sample_env "data/reviews.json" (repeat line_obj 1000) None)
              "data/reviews.json" 1 0 "raw/data/")) in
  nth_error keys 0 = Some "raw/data/reviews.json_batch001_20240101_120000.parquet"
  /\ spec_s3_key "raw/data/" "data/reviews.json" "20240101_120000" 1
     = "raw/data/reviews_batch001_20240101_120000.parquet"
  /\ nth_error keys 0
     <> Some (spec_s3_key "raw/data/" "data/reviews.json" "20240101_120000" 1)
  /\ nth_error keys 998 = Some "raw/data/reviews.json_batch999_20240101_120000.parquet"
  /\ nth_error keys 999 = Some "raw/data/reviews.json_batch1000_20240101_120000.parquet"
  /\ strictly_sorted keys = false.
Proof.
  vm_compute. repeat split; try reflexivity. intros H. discriminate H.
Qed.

(** ** The upload loop when nothing disturbs it *)

Lemma wp_tick_quiet (Q : unit -> state -> Prop) X s :
  sigint s = None -> Q tt s -> wp tick Q X s.
Proof. intros Hs HQ. unfold wp, tick. now rewrite Hs. Qed.

Lemma uploaded_batches_app (t1 t2 : list event) :
  uploaded_batches (t1 ++ t2) = uploaded_batches t1 ++ uploaded_batches t2.
Proof. unfold uploaded_batches. now rewrite uploads_app, map_app. Qed.

Lemma waits_app (t1 t2 : list event) : waits (t1 ++ t2) = waits t1 + waits t2.
Proof. unfold waits, Py.len. rewrite filter_app, length_app. lia. Qed.

Lemma sleeps_app (t1 t2 : list event) : sleeps (t1 ++ t2) = sleeps t1 + sleeps t2.
Proof. unfold sleeps, Py.len. rewrite filter_app, length_app. lia. Qed.

Lemma len_app {A : Type} (l1 l2 : list A) :
  Py.len (l1 ++ l2) = Py.len l1 + Py.len l2.
Proof. unfold Py.len. rewrite length_app. lia. Qed.

Lemma len_nonneg {A : Type} (l : list A) : 0 <= Py.len l.
Proof. unfold Py.len. lia. Qed.

Lemma len_concat_full (b : Z) (batches : list (list Json)) :
  Forall (fun r => Py.len r = b) batches ->
  Py.len (List.concat batches) = Py.len batches * b.
Proof.
  induction 1 as [|r rs Hr _ IH]; [reflexivity|].
  cbn [List.concat]. rewrite len_app, IH, Hr.
  unfold Py.len. cbn [List.length]. lia.
Qed.

Lemma waits_due_S (batch_size total_lines : Z) (m : nat) :
  waits_due batch_size total_lines (S m)
  = waits_due batch_size total_lines m
    + (if (Z.of_nat m + 1) * batch_size <? total_lines then 1 else 0).
Proof.
  unfold waits_due. rewrite batch_numbers_S, filter_app, len_app.
  cbn [filter]. now destruct (_ <? _).
Qed.

Lemma waits_cons (ev : event) (t : list event) :
  waits (ev :: t) = (if is_waiting ev then 1 else 0) + waits t.
Proof.
  unfold waits, Py.len. cbn [filter].
  destruct (is_waiting ev); cbn [List.length]; lia.
Qed.

Lemma sleeps_cons (ev : event) (t : list event) :
  sleeps (ev :: t) = (if is_sleep ev then 1 else 0) + sleeps t.
Proof.
  unfold sleeps, Py.len. cbn [filter].
  destruct (is_sleep ev); cbn [List.length]; lia.
Qed.

Lemma waits_nil : waits [] = 0.
Proof. reflexivity. Qed.

Lemma sleeps_nil : sleeps [] = 0.
Proof. reflexivity. Qed.

Lemma uploaded_batches_cons (ev : event) (t : list event) :
  uploaded_batches (ev :: t)
  = match ev with Put _ r => [r] | _ => [] end ++ uploaded_batches t.
Proof. now destruct ev. Qed.

Lemma uploaded_batches_nil : uploaded_batches [] = [].
Proof. reflexivity. Qed.

(** What the events at the end of a trace add to the observations. *)
Ltac obs_simpl :=
  repeat first [ rewrite uploads_app | rewrite uploaded_batches_app
               | rewrite waits_app | rewrite sleeps_app
               | rewrite waits_cons | rewrite sleeps_cons
               | rewrite waits_nil | rewrite sleeps_nil
               | rewrite uploaded_batches_cons
               | rewrite uploaded_batches_nil ];
  cbn [uploads is_waiting is_sleep app];
  rewrite ?app_nil_r, ?Z.add_0_r, ?Z.add_0_l.

Section QuietRun.

Variable json_loads : string -> option Json.
Variable e : env.
Variables (batch_size delay_seconds : Z) (s3_prefix : string).
Variables (total_lines num_batches : Z) (filename timestamp : string).

(** The number of valid records of the whole file. *)
Variable n : Z.

Hypothesis store_accepts : forall k r, env_put_ok e k r = true.
Hypothesis size_positive : 1 <= batch_size.
Hypothesis probe_saw_lines : total_lines = 0 -> n < batch_size.

#[local] Abbreviation Filling :=
  (filling json_loads batch_size delay_seconds total_lines).

Lemma wp_upload_accepted (k : string) (r : list Json)
      (Q : unit -> state -> Prop) X s :
  Q tt (with_event s (Put k r)) -> wp (upload_dataframe e k r) Q X s.
Proof.
  intros HQ. unfold upload_dataframe. rewrite store_accepts. now apply wp_emit.
Qed.

(** In a filling state the records counted are those stored and
    buffered. *)
Lemma filling_line_num (done : list string) (s : state) :
  Filling done s ->
  line_num s
  = Py.len (uploads (out s)) * batch_size + Py.len (batch_data s).
Proof.
  intros (_ & Hrec & Hfull & Hnum & _). rewrite Hnum, <- Hrec, len_app.
  rewrite (len_concat_full batch_size) by assumption.
  unfold uploaded_batches, Py.len. now rewrite length_map.
Qed.

(** The countdown of an undisturbed run sleeps [k] times and does nothing
    else that is observed. *)
Lemma countdown_quiet (k : nat) (s : state) :
  sigint s = None ->
  wp (countdown k)
     (fun _ s' =>
        sigint s' = None /\ batch_num s' = batch_num s
        /\ total_uploaded s' = total_uploaded s
        /\ batch_data s' = batch_data s /\ line_num s' = line_num s
        /\ uploads (out s') = uploads (out s)
        /\ waits (out s') = waits (out s)
        /\ sleeps (out s') = sleeps (out s) + Z.of_nat k)
     (fun _ _ => False) s.
Proof.
  revert s. induction k as [|k IH]; intros s Hs.
  - apply wp_ret. repeat split; try assumption. lia.
  - cbn [countdown]. wp_steps. apply wp_tick_quiet; [exact Hs|]. wp_steps.
    eapply wp_mono; [apply IH; exact Hs| |auto].
    intros [] s' (H1 & H2 & H3 & H4 & H5 & H6 & H7 & H8). wp_simpl_all.
    repeat split; try assumption.
    + rewrite H6. now obs_simpl.
    + rewrite H7. now obs_simpl.
    + rewrite H8. obs_simpl. lia.
Qed.

(** Sealing a full buffer in an undisturbed run stores it as one more
    batch and empties it. *)
Lemma upload_full_batch_quiet (done : list string) (s : state) :
  Filling done s ->
  Py.len (batch_data s) = batch_size ->
  line_num s <= n ->
  wp (upload_full_batch e delay_seconds s3_prefix total_lines num_batches
                        filename timestamp)
     (fun _ s' => Filling done s' /\ batch_data s' = [])
     (fun _ _ => False) s.
Proof.
  intros HF Hlen Hn. pose proof (filling_line_num done s HF) as Hline.
  pose proof (len_nonneg (uploads (out s))) as Hu0.
  destruct HF as (Hs & Hrec & Hfull & Hnum & Hw & Hsl).
  assert (Hline' : line_num s
                   = (Z.of_nat (List.length (uploads (out s))) + 1) * batch_size)
    by (unfold Py.len in *; lia).
  unfold upload_full_batch. wp_steps.
  apply wp_true_div; intros Htl; [unfold Py.len in *; nia|]. wp_steps.
  apply wp_tick_quiet; [exact Hs|]. wp_steps.
  apply wp_upload_accepted. wp_steps.
  apply wp_tick_quiet; [exact Hs|]. wp_steps.
  assert (Hfull' : Forall (fun r => Py.len r = batch_size)
                          (uploaded_batches (out s) ++ [batch_data s]))
    by (apply Forall_app; split; [assumption|now constructor]).
  assert (Hrec' : List.concat (uploaded_batches (out s) ++ [batch_data s]) ++ []
                  = valid_records json_loads done).
  { rewrite concat_app. cbn [List.concat]. now rewrite !app_nil_r. }
  destruct (line_num s <? total_lines) eqn:Hwait.
  - wp_steps.
    eapply wp_mono; [apply countdown_quiet; exact Hs| |auto].
    intros [] s' (H1 & H2 & H3 & H4 & H5 & H6 & H7 & H8). wp_simpl_all.
    revert H6 H7 H8. obs_simpl. intros H6 H7 H8.
    split; [|exact H4]. unfold filling, uploaded_batches in *.
    rewrite H4, H5, H6, H7, H8, map_app, length_app, Nat.add_1_r, waits_due_S.
    rewrite <- Hline', Hwait. cbn [map snd List.length].
    repeat split; try assumption; [lia|].
    rewrite Hsl.
    replace (Z.of_nat (Z.to_nat delay_seconds)) with (Z.max 0 delay_seconds)
      by lia.
    ring.
  - wp_steps. split; [|reflexivity]. unfold filling. wp_simpl. obs_simpl.
    rewrite length_app, Nat.add_1_r, waits_due_S, <- Hline', Hwait.
    rewrite app_nil_r in Hrec'. repeat split; try assumption; lia.
Qed.

Lemma check_batch_quiet (done : list string) (s : state) :
  Filling done s ->
  Py.len (batch_data s) <= batch_size ->
  line_num s <= n ->
  wp (check_batch e batch_size delay_seconds s3_prefix total_lines
                  num_batches filename timestamp)
     (fun _ s' => Filling done s' /\ Py.len (batch_data s') < batch_size)
     (fun _ _ => False) s.
Proof.
  intros HF Hlen Hn. unfold check_batch. wp_steps.
  destruct (Z.leb_spec batch_size (Py.len (batch_data s))).
  - eapply wp_mono;
      [apply (upload_full_batch_quiet done); [assumption|lia|assumption]| |auto].
    intros [] s' (HF' & ->). split; [assumption|]. cbn. lia.
  - apply wp_ret. now split.
Qed.

Lemma filling_same_records (done done' : list string) (s : state) :
  valid_records json_loads done' = valid_records json_loads done ->
  Filling done s -> Filling done' s.
Proof. unfold filling. now intros ->. Qed.

Lemma process_line_quiet (done : list string) (line : string) (s : state) :
  Filling done s ->
  Py.len (batch_data s) < batch_size ->
  Py.len (valid_records json_loads (done ++ [line])) <= n ->
  wp (process_line json_loads e batch_size delay_seconds s3_prefix
                   total_lines num_batches filename timestamp line)
     (fun _ s' => Filling (done ++ [line]) s'
                  /\ Py.len (batch_data s') < batch_size)
     (fun _ _ => False) s.
Proof.
  intros HF Hlen Hn.
  assert (Hdone : valid_records json_loads (done ++ [line])
                  = valid_records json_loads done ++ decode_line json_loads line).
  { rewrite valid_records_app. cbn. now rewrite app_nil_r. }
  rewrite Hdone, len_app in Hn.
  pose proof HF as (Hs & Hrec & Hfull & Hnum & Hw & Hsl).
  unfold process_line. unfold decode_line in *.
  destruct (nonblank line).
  - destruct (json_loads line) as [v|].
    + wp_steps. apply check_batch_quiet.
      * unfold filling. wp_simpl. rewrite Hdone, len_app, <- Hnum, app_assoc, Hrec.
        repeat split; try assumption.
      * wp_simpl. rewrite len_app. cbn. lia.
      * wp_simpl. rewrite Hnum. exact Hn.
    + apply wp_ret. rewrite app_nil_r in Hdone. split; [|assumption].
      now apply (filling_same_records done).
  - rewrite app_nil_r in Hdone.
    eapply wp_mono; [apply (check_batch_quiet done)| |auto];
      [assumption|lia|cbn in Hn; lia|].
    intros [] s' (HF' & Hlen'). split; [|assumption].
    now apply (filling_same_records done).
Qed.

Lemma scan_quiet (rest : list string) :
  forall (done : list string) (s : state),
    Filling done s ->
    Py.len (batch_data s) < batch_size ->
    Py.len (valid_records json_loads (done ++ rest)) = n ->
    wp (scan json_loads e batch_size delay_seconds s3_prefix total_lines
             num_batches filename timestamp rest)
       (fun _ s' => Filling (done ++ rest) s'
                    /\ Py.len (batch_data s') < batch_size)
       (fun _ _ => False) s.
Proof.
  induction rest as [|line rest IH]; intros done s HF Hlen Hn.
  - apply wp_ret. rewrite app_nil_r. now split.
  - cbn [scan]. wp_steps. apply wp_tick_quiet; [apply HF|]. wp_steps.
    eapply wp_mono; [apply (process_line_quiet done line)| |auto];
      try assumption.
    + replace (done ++ line :: rest) with ((done ++ [line]) ++ rest) in Hn
        by now rewrite <- app_assoc.
      rewrite valid_records_app, len_app in Hn.
      pose proof (len_nonneg (valid_records json_loads rest)). lia.
    + intros [] s' (HF' & Hlen'). wp_steps.
      replace (done ++ line :: rest) with ((done ++ [line]) ++ rest)
        by now rewrite <- app_assoc.
      apply IH; try assumption. now rewrite <- app_assoc.
Qed.

Lemma div_full (u b r : Z) : 0 <= r < b -> (u * b + r) / b = u.
Proof. intros Hr. symmetry. apply (Z.div_unique_pos _ _ _ r); lia. Qed.

Lemma Forall_removelast {A : Type} (P : A -> Prop) (l : list A) :
  Forall P l -> Forall P (removelast l).
Proof.
  induction 1 as [|a l Ha Hl IH]; [constructor|].
  cbn. destruct l; [constructor|]. now constructor.
Qed.

(** At the end of the file the records left in the buffer are stored as
    a last, short batch, and no wait follows. *)
Lemma upload_final_batch_quiet (lines : list string) (s : state) :
  Filling lines s ->
  Py.len (batch_data s) < batch_size ->
  wp (upload_final_batch e s3_prefix num_batches filename timestamp)
     (fun _ s' => finished json_loads batch_size delay_seconds total_lines
                           lines (out s'))
     (fun _ _ => False) s.
Proof.
  intros HF Hlen. pose proof (filling_line_num lines s HF) as Hline.
  destruct HF as (Hs & Hrec & Hfull & Hnum & Hw & Hsl).
  pose proof (len_nonneg (uploads (out s))) as Hu0.
  pose proof (len_nonneg (batch_data s)) as Hb0.
  rewrite Hnum in Hline.
  assert (Hdiv : Py.len (valid_records json_loads lines) / batch_size
                 = Py.len (uploads (out s)))
    by (rewrite Hline; apply div_full; lia).
  assert (Hto : Z.to_nat (Py.len (uploads (out s)))
                = List.length (uploads (out s)))
    by (unfold Py.len; lia).
  unfold upload_final_batch. wp_steps.
  destruct (batch_data s) as [|r0 rs] eqn:Hbd.
  - apply wp_ret. rewrite app_nil_r in Hrec. unfold finished.
    rewrite Hdiv, Hto. split; [exact Hrec|]. split; [|split; [|now split]].
    + split; [now apply Forall_removelast|].
      revert Hfull. apply Forall_impl. intros r Hr. lia.
    + unfold spec_batch_count. rewrite Hline.
      change (Py.len (@nil Json)) with 0 in *. rewrite Z.add_0_r.
      destruct (Z.eqb_spec (Py.len (uploads (out s)) * batch_size) 0); [nia|].
      replace (Py.len (uploads (out s)) * batch_size + batch_size - 1)
        with (Py.len (uploads (out s)) * batch_size + (batch_size - 1)) by lia.
      rewrite div_full by lia. reflexivity.
  - wp_steps. apply wp_tick_quiet; [exact Hs|]. wp_steps.
    apply wp_upload_accepted. wp_steps.
    apply wp_tick_quiet; [exact Hs|]. wp_steps.
    unfold finished. obs_simpl. rewrite ?Hbd, Hdiv, Hto, concat_app.
    cbn [List.concat]. rewrite app_nil_r.
    assert (Hr1 : 1 <= Py.len (r0 :: rs))
      by (unfold Py.len; cbn [List.length]; lia).
    split; [exact Hrec|]. split; [|split; [|split; [exact Hw|exact Hsl]]].
    + split; [now rewrite removelast_last|].
      apply Forall_app. split; [|constructor; [lia|constructor]].
      revert Hfull. apply Forall_impl. intros r Hr. lia.
    + unfold spec_batch_count. rewrite Hline, len_app.
      destruct (Z.eqb_spec (Py.len (uploads (out s)) * batch_size
                            + Py.len (r0 :: rs)) 0); [nia|].
      replace (Py.len (uploads (out s)) * batch_size + Py.len (r0 :: rs)
               + batch_size - 1)
        with ((Py.len (uploads (out s)) + 1) * batch_size
              + (Py.len (r0 :: rs) - 1)) by lia.
      rewrite div_full by lia. reflexivity.
Qed.

Lemma finished_same_observations (lines : list string) (t t' : list event) :
  same_observations t t' ->
  finished json_loads batch_size delay_seconds total_lines lines t ->
  finished json_loads batch_size delay_seconds total_lines lines t'.
Proof.
  intros (Hu & Hw & Hs). unfold finished, uploaded_batches.
  now rewrite Hu, Hw, Hs.
Qed.

(** The closing report stores nothing and does not sleep; it fails when
    no batch has been counted. *)
Lemma summary_observations (s : state) :
  wp summary
     (fun _ s' => same_observations (out s) (out s'))
     (fun err s' => err = ZeroDivisionError /\ batch_num s = 0
                    /\ same_observations (out s) (out s'))
     s.
Proof.
  unfold summary. wp_steps. apply wp_true_div; intros Hb; wp_steps.
  - split; [reflexivity|]. split; [exact Hb|].
    unfold same_observations. wp_simpl. obs_simpl. now repeat split.
  - unfold same_observations. wp_simpl. obs_simpl. now repeat split.
Qed.

(** The body of the [try] in an undisturbed run: the scan ends, all
    records are stored in batches, and the only failure possible is that
    of the closing report when the file has no valid record. *)
Lemma try_body_quiet (lines : list string) :
  env_sigint e = None ->
  Py.len (valid_records json_loads lines) = n ->
  wp (try_body json_loads e batch_size delay_seconds s3_prefix total_lines
               num_batches filename timestamp lines)
     (fun _ s' => finished json_loads batch_size delay_seconds total_lines
                           lines (out s'))
     (fun err s' => err = ZeroDivisionError /\ n = 0
                    /\ finished json_loads batch_size delay_seconds
                                total_lines lines (out s'))
     (initial_state e).
Proof.
  intros Hsig Hn. unfold try_body. wp_steps.
  eapply wp_mono.
  - apply wp_conj.
    + apply (scan_quiet lines []); [|cbn; lia|exact Hn].
      unfold filling, initial_state. cbn. rewrite Hsig. repeat split.
      constructor.
    + apply (scan_consistent json_loads e batch_size delay_seconds s3_prefix
                             total_lines num_batches filename timestamp).
      apply initial_state_consistent.
  - intros [] s1 ((HF1 & Hlen1) & HC1). wp_steps. cbn [app] in HF1.
    eapply wp_mono.
    + apply wp_conj.
      * now apply (upload_final_batch_quiet lines).
      * apply upload_final_batch_consistent. exact HC1.
    + intros [] s2 (Hfin & HC2). cbn beta.
      eapply wp_mono; [apply summary_observations| |].
      * intros [] s3 Hobs. cbn beta.
        now apply (finished_same_observations lines (out s2)).
      * intros err s3 (-> & Hb0 & Hobs). cbn beta.
        split; [reflexivity|]. split.
        -- destruct HC2 as (_ & Hb & _). destruct Hfin as (_ & _ & Hc & _).
           rewrite Hn, <- Hb, Hb0 in Hc. unfold spec_batch_count in Hc.
           destruct (Z.eqb_spec n 0) as [|Hne]; [assumption|].
           assert (1 <= (n + batch_size - 1) / batch_size).
           { apply Z.div_le_lower_bound; [lia|].
             pose proof (len_nonneg (valid_records json_loads lines)). lia. }
           lia.
        -- now apply (finished_same_observations lines (out s2)).
    + intros err s2 ([] & _).
  - intros err s1 ([] & _).
Qed.

End QuietRun.

(** ** Undisturbed runs of [upload_in_batches] *)

Lemma len_valid_records_le_count_nonblank
      (json_loads : string -> option Json) (lines : list string) :
  Py.len (valid_records json_loads lines) <= count_nonblank lines.
Proof.
  unfold count_nonblank. induction lines as [|line rest IH]; [reflexivity|].
  rewrite valid_records_cons, len_app. unfold decode_line. cbn [filter].
  destruct (nonblank line).
  - destruct (json_loads line); unfold Py.len in *; cbn [List.length]; lia.
  - unfold Py.len in *; cbn [List.length]; lia.
Qed.

Lemma count_nonblank_all_decode
      (json_loads : string -> option Json) (lines : list string) :
  (forall line, In line lines -> nonblank line = true ->
                json_loads line <> None) ->
  count_nonblank lines = Py.len (valid_records json_loads lines).
Proof.
  unfold count_nonblank. induction lines as [|line rest IH]; intros Hall;
    [reflexivity|].
  rewrite valid_records_cons, len_app. unfold decode_line. cbn [filter].
  specialize (IH (fun l Hl => Hall l (or_intror Hl))).
  pose proof (Hall line (or_introl eq_refl)) as Hline.
  destruct (nonblank line).
  - destruct (json_loads line); [|now destruct Hline].
    unfold Py.len in *; cbn [List.length]; lia.
  - unfold Py.len in *; cbn [List.length]; lia.
Qed.

(** A confirmed run that no interrupt and no failure of the store
    disturbs, on a file of which the probe has counted a line unless it
    holds less than one batch: the call returns, the stored batches are
    the valid records of the file in file order, all full but a last
    short one, as many as the specification counts, and a wait of
    [delay_seconds] sleeps follows each full batch that leaves the number
    of records read below the probe's count of lines. *)
Theorem upload_in_batches_quiet
        (json_loads : string -> option Json) (e : env) (filepath : string)
        (f : file) (batch_size delay_seconds : Z) (s3_prefix : string) :
  env_fs e filepath = Some f ->
  1 <= batch_size ->
  Py.lower (Py.strip (env_input e)) = "y" ->
  env_sigint e = None ->
  (forall k r, env_put_ok e k r = true) ->
  (info_line_count (get_file_info json_loads (env_fs e) filepath) = 0 ->
   Py.len (valid_records json_loads (f_lines f)) < batch_size) ->
  fst (upload_in_batches json_loads e filepath batch_size delay_seconds s3_prefix)
  = Ok tt
  /\ finished json_loads batch_size delay_seconds
              (info_line_count (get_file_info json_loads (env_fs e) filepath))
              (f_lines f)
              (snd (upload_in_batches json_loads e filepath batch_size
                                      delay_seconds s3_prefix)).
Proof.
  intros Hf Hb Hyes Hsig Hput Hprobe. unfold upload_in_batches.
  rewrite Hf, Hyes. destruct (Z.eqb_spec batch_size 0) as [|_]; [lia|].
  cbn [String.eqb Ascii.eqb Bool.eqb negb].
  match goal with
  | |- context [try_body ?a ?b ?c ?d ?p ?tl ?nb ?fn ?ts ?ls ?s] =>
      pose proof (try_body_quiet a b c d p tl nb fn ts
                    (Py.len (valid_records json_loads (f_lines f)))
                    Hput Hb Hprobe ls Hsig eq_refl) as H;
      unfold wp in H;
      destruct (try_body a b c d p tl nb fn ts ls s) as [[[]|err] s']
  end.
  - split; [reflexivity|]. cbn [snd]. revert H.
    apply finished_same_observations. unfold same_observations. obs_simpl.
    now repeat split.
  - destruct H as (-> & _ & H). split; [reflexivity|]. cbn [snd]. revert H.
    apply finished_same_observations. unfold same_observations. obs_simpl.
    now repeat split.
Qed.

Lemma upload_in_batches_quiet_witness :
  let lines := [line_id 1; line_bad; line_id 2; newline; line_id 3] in
  sample_run lines None 2 1
  = (Ok tt, [Printed (MsgFile 4); Printed (MsgPlan 2); Printed (MsgBatch 1 2 2);
             Printed (MsgProgress 2 4); Printed (MsgUploading (sample_key 1));
             Put (sample_key 1) [id_record 1; id_record 2];
             Printed (MsgUploaded 1 2); Printed (MsgWaiting 1);
             Printed (MsgCountdown 1); Sleep;
             Printed (MsgFinalBatch 2 2 1); Printed (MsgUploading (sample_key 2));
             Put (sample_key 2) [id_record 3];
             Printed (MsgUploadedFinal 1); Printed MsgComplete;
             Printed (MsgTotalBatches 2); Printed (MsgTotalRecords 3);
             Printed MsgAllInS3])
  /\ finished sample_loads 2 1 4 lines (snd (sample_run lines None 2 1)).
Proof.
  intros lines. split; [vm_compute; reflexivity|].
  refine (proj2 (upload_in_batches_quiet
                   sample_loads (sample_env sample_path lines None) sample_path
                   (file_of lines)
                   2 1 "raw/data/" eq_refl _ eq_refl eq_refl
                   (fun _ _ => eq_refl) _)).
  - lia.
  - vm_compute. intros H. discriminate H.
Defined.

(** When the first line of the file is blank or a JSON object, the probe
    counts the non-blank lines and the condition of
    [upload_in_batches_quiet] on its count holds: batches and records are
    as the specification says. *)
Theorem upload_batches_when_probed
        (json_loads : string -> option Json) (e : env) (filepath : string)
        (f : file) (keys : list string) (batch_size delay_seconds : Z)
        (s3_prefix : string) :
  env_fs e filepath = Some f ->
  1 <= batch_size ->
  Py.lower (Py.strip (env_input e)) = "y" ->
  env_sigint e = None ->
  (forall k r, env_put_ok e k r = true) ->
  sample_first_line json_loads (f_lines f) = Ok keys ->
  let t := snd (upload_in_batches json_loads e filepath batch_size
                                  delay_seconds s3_prefix) in
  let records := valid_records json_loads (f_lines f) in
  List.concat (uploaded_batches t) = records
  /\ well_batched batch_size (uploaded_batches t)
  /\ Py.len (uploaded_batches t) = spec_batch_count (Py.len records) batch_size.
Proof.
  intros Hf Hb Hyes Hsig Hput Hsample t records.
  destruct (upload_in_batches_quiet json_loads e filepath f batch_size
              delay_seconds s3_prefix Hf Hb Hyes Hsig Hput)
    as (_ & Hrec & Hwb & Hcount & _).
  - rewrite (get_file_info_counts_when_sampled json_loads (env_fs e) filepath
               f keys Hf Hsample). cbn [info_line_count]. intros H0.
    pose proof (len_valid_records_le_count_nonblank json_loads (f_lines f)).
    lia.
  - repeat split; try assumption; try apply Hwb.
    unfold uploaded_batches, Py.len in *. now rewrite length_map.
Qed.

Lemma upload_batches_when_probed_witness :
  let lines := [line_id 1; line_bad; line_id 2; newline; line_id 3] in
  let t := snd (sample_run lines None 2 1) in
  List.concat (uploaded_batches t) = [id_record 1; id_record 2; id_record 3]
  /\ well_batched 2 (uploaded_batches t)
  /\ Py.len (uploaded_batches t) = 2.
Proof.
  intros lines.
  refine (upload_batches_when_probed
            sample_loads (sample_env sample_path lines None) sample_path
            (file_of lines)
            ["id"] 2 1 "raw/data/" eq_refl _ eq_refl eq_refl
            (fun _ _ => eq_refl) eq_refl).
  lia.
Defined.

(** The waits due after [m] full batches, when the records run out
    later, and when they run out just there. *)
Lemma waits_due_below (batch_size total_lines : Z) (m : nat) :
  1 <= batch_size ->
  Z.of_nat m * batch_size < total_lines ->
  waits_due batch_size total_lines m = Z.of_nat m.
Proof.
  intros Hb. induction m as [|m IH]; intros Hm; [reflexivity|].
  rewrite waits_due_S, IH by nia.
  destruct (Z.ltb_spec ((Z.of_nat m + 1) * batch_size) total_lines); lia.
Qed.

Lemma waits_due_exact (batch_size total_lines : Z) (m : nat) :
  1 <= batch_size ->
  Z.of_nat (S m) * batch_size = total_lines ->
  waits_due batch_size total_lines (S m) = Z.of_nat m.
Proof.
  intros Hb Hm. rewrite waits_due_S, waits_due_below by nia.
  destruct (Z.ltb_spec ((Z.of_nat m + 1) * batch_size) total_lines); lia.
Qed.

(** When the probe's count is the number of records, the waits due are
    one less than the batches. *)
Lemma waits_due_all_records (batch_size n : Z) :
  1 <= batch_size -> 0 <= n ->
  waits_due batch_size n (Z.to_nat (n / batch_size))
  = Z.max 0 (spec_batch_count n batch_size - 1).
Proof.
  intros Hb Hn. unfold spec_batch_count.
  pose proof (Z.div_mod n batch_size ltac:(lia)) as Hdm.
  pose proof (Z.mod_pos_bound n batch_size ltac:(lia)) as Hmod.
  pose proof (Z.div_pos n batch_size Hn ltac:(lia)) as Hq.
  destruct (Z.eqb_spec n 0) as [->|Hn0]; [reflexivity|].
  destruct (Z.eq_dec (n mod batch_size) 0) as [H0|H0].
  - replace ((n + batch_size - 1) / batch_size) with (n / batch_size).
    + destruct (Z.to_nat (n / batch_size)) as [|m] eqn:Hm; [nia|].
      rewrite waits_due_exact; [lia|lia|nia].
    + replace (n + batch_size - 1)
        with (n / batch_size * batch_size + (batch_size - 1)) by lia.
      now rewrite div_full by lia.
  - replace ((n + batch_size - 1) / batch_size) with (n / batch_size + 1).
    + rewrite waits_due_below; [lia|lia|nia].
    + replace (n + batch_size - 1)
        with ((n / batch_size + 1) * batch_size + (n mod batch_size - 1))
        by lia.
      now rewrite div_full by lia.
Qed.

(** When, moreover, every non-blank line of the file decodes, the run
    waits after every batch but the last: one wait less than batches,
    each of [delay_seconds] sleeps. *)
Theorem upload_waits_when_all_lines_decode
        (json_loads : string -> option Json) (e : env) (filepath : string)
        (f : file) (keys : list string) (batch_size delay_seconds : Z)
        (s3_prefix : string) :
  env_fs e filepath = Some f ->
  1 <= batch_size ->
  Py.lower (Py.strip (env_input e)) = "y" ->
  env_sigint e = None ->
  (forall k r, env_put_ok e k r = true) ->
  sample_first_line json_loads (f_lines f) = Ok keys ->
  (forall line, In line (f_lines f) -> nonblank line = true ->
                json_loads line <> None) ->
  let t := snd (upload_in_batches json_loads e filepath batch_size
                                  delay_seconds s3_prefix) in
  waits t = Z.max 0 (Py.len (uploaded_batches t) - 1)
  /\ sleeps t = waits t * Z.max 0 delay_seconds.
Proof.
  intros Hf Hb Hyes Hsig Hput Hsample Hall t.
  pose proof (get_file_info_counts_when_sampled json_loads (env_fs e) filepath
                f keys Hf Hsample) as Hinfo.
  pose proof (count_nonblank_all_decode json_loads (f_lines f) Hall) as Hcount.
  destruct (upload_in_batches_quiet json_loads e filepath f batch_size
              delay_seconds s3_prefix Hf Hb Hyes Hsig Hput)
    as (_ & _ & _ & Hc & Hw & Hs).
  - rewrite Hinfo. cbn [info_line_count]. rewrite Hcount. lia.
  - rewrite Hinfo in Hw. cbn [info_line_count] in Hw.
    rewrite Hcount in Hw.
    rewrite waits_due_all_records in Hw by (try apply len_nonneg; lia).
    fold t in Hc, Hw, Hs. split; [|exact Hs].
    rewrite Hw, <- Hc. unfold uploaded_batches, Py.len.
    now rewrite length_map.
Qed.

Lemma upload_waits_when_all_lines_decode_witness :
  let lines := [line_id 1; line_id 2; newline; line_id 3; line_id 4; line_id 5] in
  let t := snd (sample_run lines None 2 3) in
  (Py.len (uploaded_batches t) = 3 /\ waits t = 2 /\ sleeps t = 6)
  /\ waits t = Z.max 0 (Py.len (uploaded_batches t) - 1)
  /\ sleeps t = waits t * Z.max 0 3.
Proof.
  intros lines t. split; [vm_compute; repeat split|].
  apply (upload_waits_when_all_lines_decode
           sample_loads (sample_env sample_path lines None) sample_path
           (file_of lines)
           ["id"] 2 3 "raw/data/").
  - reflexivity.
  - lia.
  - reflexivity.
  - reflexivity.
  - reflexivity.
  - vm_compute. reflexivity.
  - intros line Hin Hnb. cbn [f_lines lines In] in Hin.
    repeat (destruct Hin as [<-|Hin];
            [first [ vm_compute; discriminate
                   | vm_compute in Hnb; discriminate Hnb ]|]).
    destruct Hin.
Defined.

(** ** How a run ends *)

(** Whatever happens inside the [try], the call returns: the only
    exception that leaves [upload_in_batches] is the division by a
    [batch_size] of zero at line 55. *)
Theorem upload_in_batches_returns
        (json_loads : string -> option Json) (e : env) (filepath : string)
        (batch_size delay_seconds : Z) (s3_prefix : string) :
  batch_size <> 0 ->
  fst (upload_in_batches json_loads e filepath batch_size delay_seconds s3_prefix)
  = Ok tt.
Proof.
  intros Hb. unfold upload_in_batches.
  destruct (env_fs e filepath); [|reflexivity].
  destruct (Z.eqb_spec batch_size 0); [contradiction|].
  destruct (negb _); [reflexivity|].
  destruct (try_body _ _ _ _ _ _ _ _ _ _ _) as [[[]|[]] s]; reflexivity.
Qed.

Lemma upload_in_batches_returns_witness :
  fst (sample_run [line_id 1; line_id 2; line_id 3] (Some 5%nat) 2 20) = Ok tt.
Proof.
  apply (upload_in_batches_returns
           sample_loads
           (sample_env sample_path [line_id 1; line_id 2; line_id 3] (Some 5%nat))
           sample_path 2 20 "raw/data/").
  lia.
Defined.

(** When the [try] is left by an exception, a Ctrl-C included, the keys
    stored are numbered, [batch_num] is the number of batches stored or
    one more, and [total_uploaded] is at most the number of records
    stored. *)
Lemma try_body_raise_in_flight
      (json_loads : string -> option Json) (e : env)
      (batch_size delay_seconds : Z) (s3_prefix : string)
      (total_lines num_batches : Z) (filename timestamp : string)
      (lines : list string) (err : exn) (s : state) :
  try_body json_loads e batch_size delay_seconds s3_prefix total_lines
           num_batches filename timestamp lines (initial_state e)
  = (Raise err, s) ->
  in_flight s3_prefix filename timestamp s.
Proof.
  intros Hrun.
  pose proof (try_body_in_flight json_loads e batch_size delay_seconds
                s3_prefix total_lines num_batches filename timestamp lines
                (initial_state e)
                (initial_state_consistent s3_prefix filename timestamp e)) as H.
  unfold wp in H. now rewrite Hrun in H.
Qed.

(** ** Files without a valid record *)

(** With an empty buffer and no record to come, the scan changes
    nothing. *)
Lemma scan_no_records
      (json_loads : string -> option Json) (e : env)
      (batch_size delay_seconds : Z) (s3_prefix : string)
      (total_lines num_batches : Z) (filename timestamp : string)
      (lines : list string) (s : state) :
  1 <= batch_size ->
  valid_records json_loads lines = [] ->
  sigint s = None ->
  batch_data s = [] ->
  scan json_loads e batch_size delay_seconds s3_prefix total_lines
       num_batches filename timestamp lines s
  = (Ok tt, s).
Proof.
  intros Hb Hrec Hsig Hbd. induction lines as [|line rest IH]; [reflexivity|].
  rewrite valid_records_cons in Hrec. apply app_eq_nil in Hrec as [Hline Hrest].
  cbn [scan]. unfold bind at 1, tick. rewrite Hsig.
  assert (Hcheck : check_batch e batch_size delay_seconds s3_prefix total_lines
                               num_batches filename timestamp s = (Ok tt, s)).
  { unfold check_batch, bind, get. rewrite Hbd.
    destruct (Z.leb_spec batch_size (Py.len (@nil Json))) as [Hle|_];
      [cbn in Hle; lia|reflexivity]. }
  unfold bind, process_line. unfold decode_line in Hline.
  destruct (nonblank line).
  - destruct (json_loads line); [discriminate Hline|]. now apply IH.
  - rewrite Hcheck. now apply IH.
Qed.

(** For every existing file without a valid record, every batch size
    from 1 on and every delay, the confirmed, uninterrupted run stores
    nothing, prints totals of zero and ends in the error branch:
    [total_time/batch_num] divides by zero. *)
Theorem upload_no_records_reports_error
        (json_loads : string -> option Json) (e : env) (filepath : string)
        (f : file) (batch_size delay_seconds : Z) (s3_prefix : string) :
  env_fs e filepath = Some f ->
  1 <= batch_size ->
  Py.lower (Py.strip (env_input e)) = "y" ->
  env_sigint e = None ->
  valid_records json_loads (f_lines f) = [] ->
  exists total_lines num_batches,
    upload_in_batches json_loads e filepath batch_size delay_seconds s3_prefix
    = (Ok tt, [Printed (MsgFile total_lines); Printed (MsgPlan num_batches);
               Printed MsgComplete;
               Printed (MsgTotalBatches 0); Printed (MsgTotalRecords 0);
               Printed (MsgError ZeroDivisionError);
               Printed (MsgBeforeError 0 0)]).
Proof.
  intros Hf Hb Hyes Hsig Hrec. unfold upload_in_batches.
  rewrite Hf, Hyes. destruct (Z.eqb_spec batch_size 0) as [|_]; [lia|].
  cbn [String.eqb Ascii.eqb Bool.eqb negb]. do 2 eexists.
  unfold try_body. unfold bind at 1.
  rewrite scan_no_records by (try assumption; reflexivity).
  unfold initial_state. rewrite Hsig. reflexivity.
Qed.

Lemma upload_no_records_reports_error_witness :
  exists total_lines num_batches,
    sample_run [newline; line_bad] None 1000 20
    = (Ok tt, [Printed (MsgFile total_lines); Printed (MsgPlan num_batches);
               Printed MsgComplete;
               Printed (MsgTotalBatches 0); Printed (MsgTotalRecords 0);
               Printed (MsgError ZeroDivisionError);
               Printed (MsgBeforeError 0 0)]).
Proof.
  apply (upload_no_records_reports_error
           sample_loads (sample_env sample_path [newline; line_bad] None)
           sample_path
           (file_of [newline; line_bad])
           1000 20 "raw/data/").
  - reflexivity.
  - lia.
  - reflexivity.
  - reflexivity.
  - reflexivity.
Defined.

(** ** Runs on which the uploader departs from the specification *)

(** C1 at a file whose first line is not JSON: the scan finds 3 valid
    records, so batches of 2 call for 2 uploads; the probe has left
    [total_lines] at 0, the progress report of the first batch divides by
    it, and the run ends without a single upload. *)
Theorem upload_count_malformed_first_line :
  let lines := [line_bad; line_id 1; line_id 2; line_id 3] in
  Py.len (valid_records sample_loads lines) = 3
  /\ spec_batch_count 3 2 = 2
  /\ sample_run lines None 2 20
     = (Ok tt, [Printed (MsgFile 0); Printed (MsgPlan 0); Printed (MsgBatch 1 0 2);
                Printed (MsgError ZeroDivisionError);
                Printed (MsgBeforeError 1 0)])
  /\ Py.len (uploads (snd (sample_run lines None 2 20))) = 0.
Proof. vm_compute. repeat split. Qed.

(** C2 at a file whose first line is not JSON: the two valid records of
    the file are in no stored batch. *)
Theorem upload_loses_records_malformed_first_line :
  let lines := [line_bad; line_id 1; line_id 2] in
  valid_records sample_loads lines = [id_record 1; id_record 2]
  /\ uploaded_batches (snd (sample_run lines None 1 20)) = []
  /\ List.concat (uploaded_batches (snd (sample_run lines None 1 20)))
     <> valid_records sample_loads lines.
Proof.
  vm_compute. repeat split. intros H. discriminate H.
Qed.

(** C3 at the empty file with the default batch size and delay: nothing
    is stored and zero records are reported, but the closing report
    divides by the number of batches and the run ends in the error
    branch. *)
Theorem upload_empty_file_reports_error :
  sample_run [] None 1000 20
  = (Ok tt, [Printed (MsgFile 0); Printed (MsgPlan 0); Printed MsgComplete;
             Printed (MsgTotalBatches 0); Printed (MsgTotalRecords 0);
             Printed (MsgError ZeroDivisionError);
             Printed (MsgBeforeError 0 0)]).
Proof. vm_compute. reflexivity. Qed.

(** C5 at a file that ends with a line that is not JSON: the run stores
    one batch, which is its last, and then waits the full delay. *)
Theorem upload_waits_after_last_batch :
  let lines := [line_id 1; line_id 2; line_bad] in
  sample_run lines None 2 3
  = (Ok tt, [Printed (MsgFile 3); Printed (MsgPlan 2); Printed (MsgBatch 1 2 2);
             Printed (MsgProgress 2 3); Printed (MsgUploading (sample_key 1));
             Put (sample_key 1) [id_record 1; id_record 2];
             Printed (MsgUploaded 1 2);
             Printed (MsgWaiting 3);
             Printed (MsgCountdown 3); Sleep;
             Printed (MsgCountdown 2); Sleep;
             Printed (MsgCountdown 1); Sleep;
             Printed MsgComplete; Printed (MsgTotalBatches 1);
             Printed (MsgTotalRecords 2); Printed MsgAllInS3])
  /\ Py.len (uploads (snd (sample_run lines None 2 3))) = 1
  /\ waits (snd (sample_run lines None 2 3)) = 1
  /\ sleeps (snd (sample_run lines None 2 3)) = 3.
Proof. vm_compute. repeat split. Qed.

(** C8 at Ctrl-C during the upload phase of the first batch.  Arriving
    before the store is written (third interruption point), it leaves
    nothing stored and a report of 1 batch; arriving just after (fourth
    point), it leaves 2 records stored and a report of 0 records. *)
Theorem upload_interrupt_report_off_by_one :
  let lines := [line_id 1; line_id 2; line_id 3] in
  sample_run lines (Some 2%nat) 2 20
  = (Ok tt, [Printed (MsgFile 3); Printed (MsgPlan 2); Printed (MsgBatch 1 2 2);
             Printed (MsgProgress 2 3); Printed (MsgUploading (sample_key 1));
             Printed (MsgInterrupted 1 0)])
  /\ sample_run lines (Some 3%nat) 2 20
     = (Ok tt, [Printed (MsgFile 3); Printed (MsgPlan 2); Printed (MsgBatch 1 2 2);
                Printed (MsgProgress 2 3); Printed (MsgUploading (sample_key 1));
                Put (sample_key 1) [id_record 1; id_record 2];
                Printed (MsgInterrupted 1 0)]).
Proof. vm_compute. split; reflexivity. Qed.

(** C9 at a file whose first line is not JSON: with the line the run
    ends in the error branch and stores nothing, without it the run
    completes and stores the two records. *)
Theorem upload_aborts_on_malformed_first_line :
  nonblank line_bad = true
  /\ sample_loads line_bad = None
  /\ sample_run [line_bad; line_id 1; line_id 2] None 2 20
     = (Ok tt, [Printed (MsgFile 0); Printed (MsgPlan 0); Printed (MsgBatch 1 0 2);
                Printed (MsgError ZeroDivisionError);
                Printed (MsgBeforeError 1 0)])
  /\ sample_run [line_id 1; line_id 2] None 2 20
     = (Ok tt, [Printed (MsgFile 2); Printed (MsgPlan 1); Printed (MsgBatch 1 1 2);
                Printed (MsgProgress 2 2); Printed (MsgUploading (sample_key 1));
                Put (sample_key 1) [id_record 1; id_record 2];
                Printed (MsgUploaded 1 2);
                Printed MsgComplete; Printed (MsgTotalBatches 1);
                Printed (MsgTotalRecords 2); Printed MsgAllInS3]).
Proof. vm_compute. repeat split. Qed.

(** * More properties of the reader and the probe *)

Section ReaderLoop.

Variable json_loads : string -> option Json.

(** A bound that is not zero cuts the file: the loop under the bound, from
    line index [i] on, is the loop without bound on the lines left before
    the bound. *)
Lemma read_loop_cut (limit : Z) (lines : list string) :
  limit <> 0 ->
  forall i data warned,
    0 <= i ->
    read_loop json_loads (Some limit) i lines data warned
    = read_loop json_loads None i (firstn (Z.to_nat (limit - i)) lines)
                data warned.
Proof.
  intros Hne. induction lines as [|line rest IH]; intros i data warned Hi.
  - now rewrite firstn_nil.
  - destruct (Z.leb_spec limit i) as [Hle|Hlt].
    + replace (Z.to_nat (limit - i)) with O by lia.
      cbn [firstn read_loop limit_reached].
      replace (negb (limit =? 0)) with true
        by (symmetry; apply negb_true_iff, Z.eqb_neq; exact Hne).
      replace (limit <=? i) with true by (symmetry; apply Z.leb_le; exact Hle).
      reflexivity.
    + replace (Z.to_nat (limit - i)) with (S (Z.to_nat (limit - (i + 1))))
        by lia.
      cbn [firstn read_loop limit_reached].
      replace (limit <=? i) with false by (symmetry; apply Z.leb_gt; exact Hlt).
      rewrite andb_false_r.
      destruct (nonblank line); [destruct (json_loads line)|];
        apply IH; lia.
Qed.

(** A bound of zero is no bound. *)
Lemma read_loop_zero (lines : list string) :
  forall i data warned,
    read_loop json_loads (Some 0) i lines data warned
    = read_loop json_loads None i lines data warned.
Proof.
  induction lines as [|line rest IH]; intros i data warned; [reflexivity|].
  cbn [read_loop limit_reached Z.eqb negb andb].
  destruct (nonblank line); [destruct (json_loads line)|]; apply IH.
Qed.

(** The loop under any bound is the loop without bound on [lines_read]. *)
Lemma read_loop_lines_read (limit : option Z) (lines : list string)
      (data : list Json) (warned : list Z) :
  read_loop json_loads limit 0 lines data warned
  = read_loop json_loads None 0 (lines_read limit lines) data warned.
Proof.
  destruct limit as [l|]; [|reflexivity]. unfold lines_read.
  destruct (Z.eqb_spec l 0) as [->|Hne].
  - apply read_loop_zero.
  - rewrite read_loop_cut by lia. now rewrite Z.sub_0_r.
Qed.

(** Without bound the loop appends the records and the numbers of the
    malformed lines. *)
Lemma read_loop_all (lines : list string) :
  forall i data warned,
    read_loop json_loads None i lines data warned
    = (data ++ valid_records json_loads lines,
       warned ++ malformed_from json_loads i lines).
Proof.
  induction lines as [|line rest IH]; intros i data warned.
  - cbn. now rewrite !app_nil_r.
  - cbn [read_loop limit_reached malformed_from].
    rewrite valid_records_cons. unfold decode_line.
    destruct (nonblank line); [destruct (json_loads line)|];
      rewrite IH; cbn [app]; now rewrite <- ?app_assoc, ?app_nil_r.
Qed.

Lemma len_valid_and_malformed (lines : list string) (i : Z) :
  Py.len (valid_records json_loads lines)
  + Py.len (malformed_from json_loads i lines)
  = count_nonblank lines.
Proof.
  unfold count_nonblank. revert i.
  induction lines as [|line rest IH]; intros i; [reflexivity|].
  rewrite valid_records_cons. cbn [malformed_from filter].
  rewrite !len_app. specialize (IH (i + 1)). unfold decode_line.
  destruct (nonblank line); [destruct (json_loads line)|];
    unfold Py.len in *; cbn [List.length app]; lia.
Qed.

Lemma len_valid_records_le_length (lines : list string) :
  Py.len (valid_records json_loads lines) <= Py.len lines.
Proof.
  induction lines as [|line rest IH]; [reflexivity|].
  rewrite valid_records_cons, len_app. unfold decode_line.
  destruct (nonblank line); [destruct (json_loads line)|];
    unfold Py.len in *; cbn [List.length]; lia.
Qed.

Lemma lines_read_prefix (limit : option Z) (lines : list string) :
  exists rest, lines = lines_read limit lines ++ rest.
Proof.
  destruct limit as [l|]; unfold lines_read.
  - destruct (l =? 0).
    + exists []. now rewrite app_nil_r.
    + exists (skipn (Z.to_nat l) lines). now rewrite firstn_skipn.
  - exists []. now rewrite app_nil_r.
Qed.

End ReaderLoop.

Lemma firstn_plus {A : Type} (n m : nat) (l : list A) :
  firstn (n + m) l = firstn n l ++ firstn m (skipn n l).
Proof.
  revert l. induction n as [|n IH]; intros [|a l]; cbn;
    rewrite ?firstn_nil; try reflexivity.
  now rewrite IH.
Qed.

(** X1. A larger positive bound only adds records at the end: the result
    under [limit] is a prefix of the result under [limit'], and it has at
    most [limit] records. *)
Theorem read_jsonl_grows_with_limit
        (json_loads : string -> option Json) (fs : filesystem)
        (filepath : string) (f : file) (limit limit' : Z) :
  fs filepath = Some f ->
  1 <= limit <= limit' ->
  exists data more,
    read_jsonl json_loads fs filepath (Some limit) = Ok data
    /\ read_jsonl json_loads fs filepath (Some limit') = Ok (data ++ more)
    /\ Py.len data <= limit.
Proof.
  intros Hf Hl. unfold read_jsonl. rewrite Hf.
  rewrite (read_loop_lines_read json_loads (Some limit)),
          (read_loop_lines_read json_loads (Some limit')), !read_loop_all.
  unfold lines_read.
  destruct (Z.eqb_spec limit 0) as [|_]; [lia|].
  destruct (Z.eqb_spec limit' 0) as [|_]; [lia|]. cbn [fst app].
  replace (Z.to_nat limit') with (Z.to_nat limit + Z.to_nat (limit' - limit))%nat
    by lia.
  rewrite firstn_plus, valid_records_app. do 2 eexists.
  split; [reflexivity|]. split; [reflexivity|].
  pose proof (len_valid_records_le_length json_loads
                (firstn (Z.to_nat limit) (f_lines f))) as Hlen.
  pose proof (firstn_le_length (Z.to_nat limit) (f_lines f)) as Hfn.
  unfold Py.len in *. lia.
Qed.

Lemma read_jsonl_grows_with_limit_witness :
  1 <= 2 <= 4
  /\ exists data more,
       read_jsonl sample_loads (single_file "a.jsonl" reader_lines) "a.jsonl"
                  (Some 2) = Ok data
       /\ read_jsonl sample_loads (single_file "a.jsonl" reader_lines) "a.jsonl"
                     (Some 4) = Ok (data ++ more)
       /\ Py.len data <= 2.
Proof.
  split; [lia|].
  apply (read_jsonl_grows_with_limit
           sample_loads (single_file "a.jsonl" reader_lines) "a.jsonl"
           (file_of reader_lines) 2 4).
  - reflexivity.
  - lia.
Defined.

(** X2. The warnings that a call logs carry the 1-based numbers of
    exactly the lines, among those it reads, that are neither blank nor
    JSON, in file order. *)
Theorem read_jsonl_warns_malformed_lines
        (json_loads : string -> option Json) (fs : filesystem)
        (filepath : string) (f : file) (limit : option Z) :
  fs filepath = Some f ->
  read_jsonl_warnings json_loads fs filepath limit
  = malformed_from json_loads 0 (lines_read limit (f_lines f)).
Proof.
  intros Hf. unfold read_jsonl_warnings. rewrite Hf.
  now rewrite read_loop_lines_read, read_loop_all.
Qed.

Lemma read_jsonl_warns_malformed_lines_witness :
  read_jsonl_warnings sample_loads (single_file "a.jsonl" reader_lines)
                      "a.jsonl" (Some 4)
  = malformed_from sample_loads 0 (lines_read (Some 4) reader_lines)
  /\ malformed_from sample_loads 0 (lines_read (Some 4) reader_lines) = [3].
Proof.
  split; [|reflexivity].
  apply (read_jsonl_warns_malformed_lines
           sample_loads (single_file "a.jsonl" reader_lines) "a.jsonl"
           (file_of reader_lines) (Some 4)).
  reflexivity.
Defined.

(** X3. No line is dropped in silence: the records returned and the
    warnings logged together are as many as the non-blank lines read. *)
Theorem read_jsonl_accounts_for_every_line
        (json_loads : string -> option Json) (fs : filesystem)
        (filepath : string) (f : file) (limit : option Z) :
  fs filepath = Some f ->
  exists data,
    read_jsonl json_loads fs filepath limit = Ok data
    /\ Py.len data
       + Py.len (read_jsonl_warnings json_loads fs filepath limit)
       = count_nonblank (lines_read limit (f_lines f)).
Proof.
  intros Hf. unfold read_jsonl, read_jsonl_warnings. rewrite Hf.
  rewrite read_loop_lines_read, read_loop_all. cbn [fst snd app].
  eexists. split; [reflexivity|]. apply len_valid_and_malformed.
Qed.

Lemma read_jsonl_accounts_for_every_line_witness :
  exists data,
    read_jsonl sample_loads (single_file "a.jsonl" reader_lines) "a.jsonl" None
    = Ok data
    /\ Py.len data
       + Py.len (read_jsonl_warnings sample_loads
                   (single_file "a.jsonl" reader_lines) "a.jsonl" None)
       = count_nonblank (lines_read None reader_lines).
Proof.
  apply (read_jsonl_accounts_for_every_line
           sample_loads (single_file "a.jsonl" reader_lines) "a.jsonl"
           (file_of reader_lines) None).
  reflexivity.
Defined.

(** X4. A negative bound is truthy and below every index: the call reads
    no line, returns no record and logs no warning. *)
Theorem read_jsonl_negative_limit_reads_nothing
        (json_loads : string -> option Json) (fs : filesystem)
        (filepath : string) (f : file) (limit : Z) :
  fs filepath = Some f ->
  limit < 0 ->
  read_jsonl json_loads fs filepath (Some limit) = Ok []
  /\ read_jsonl_warnings json_loads fs filepath (Some limit) = [].
Proof.
  intros Hf Hl. unfold read_jsonl, read_jsonl_warnings. rewrite Hf.
  rewrite read_loop_lines_read. unfold lines_read.
  destruct (Z.eqb_spec limit 0) as [|_]; [lia|].
  replace (Z.to_nat limit) with O by lia. now split.
Qed.

Lemma read_jsonl_negative_limit_reads_nothing_witness :
  -3 < 0
  /\ read_jsonl sample_loads (single_file "a.jsonl" reader_lines) "a.jsonl"
                (Some (-3)) = Ok []
  /\ read_jsonl_warnings sample_loads (single_file "a.jsonl" reader_lines)
                         "a.jsonl" (Some (-3)) = [].
Proof.
  split; [lia|].
  apply (read_jsonl_negative_limit_reads_nothing
           sample_loads (single_file "a.jsonl" reader_lines) "a.jsonl"
           (file_of reader_lines) (-3)).
  - reflexivity.
  - lia.
Defined.

(** X5. A preview of [num_lines >= 1] lines shows the beginning of what a
    full read returns, and at most [num_lines] records of it. *)
Theorem preview_jsonl_shows_beginning
        (json_loads : string -> option Json) (fs : filesystem)
        (filepath : string) (f : file) (num_lines : Z) :
  fs filepath = Some f ->
  1 <= num_lines ->
  exists shown more,
    preview_jsonl json_loads fs filepath num_lines = Ok shown
    /\ read_jsonl json_loads fs filepath None = Ok (shown ++ more)
    /\ Py.len shown <= num_lines.
Proof.
  intros Hf Hn. unfold preview_jsonl, read_jsonl. rewrite Hf.
  rewrite (read_loop_lines_read json_loads (Some num_lines)), !read_loop_all.
  cbn [fst app].
  destruct (lines_read_prefix (Some num_lines) (f_lines f)) as [rest Hrest].
  exists (valid_records json_loads (lines_read (Some num_lines) (f_lines f))).
  exists (valid_records json_loads rest).
  split; [reflexivity|]. split.
  - now rewrite <- valid_records_app, <- Hrest.
  - unfold lines_read. destruct (Z.eqb_spec num_lines 0) as [|_]; [lia|].
    pose proof (len_valid_records_le_length json_loads
                  (firstn (Z.to_nat num_lines) (f_lines f))) as Hlen.
    pose proof (firstn_le_length (Z.to_nat num_lines) (f_lines f)) as Hfn.
    unfold Py.len in *. lia.
Qed.

Lemma preview_jsonl_shows_beginning_witness :
  1 <= 5
  /\ exists shown more,
       preview_jsonl sample_loads (single_file "a.jsonl" reader_lines)
                     "a.jsonl" 5 = Ok shown
       /\ read_jsonl sample_loads (single_file "a.jsonl" reader_lines)
                     "a.jsonl" None = Ok (shown ++ more)
       /\ Py.len shown <= 5.
Proof.
  split; [lia|].
  apply (preview_jsonl_shows_beginning
           sample_loads (single_file "a.jsonl" reader_lines) "a.jsonl"
           (file_of reader_lines) 5).
  - reflexivity.
  - lia.
Defined.

(** X6. When the sampling of the first line succeeds, the line count of
    the probe is the number of records that a full read returns plus the
    number of warnings it logs. *)
Theorem get_file_info_counts_records_and_warnings
        (json_loads : string -> option Json) (fs : filesystem)
        (filepath : string) (f : file) (keys : list string) :
  fs filepath = Some f ->
  sample_first_line json_loads (f_lines f) = Ok keys ->
  exists data,
    read_jsonl json_loads fs filepath None = Ok data
    /\ info_line_count (get_file_info json_loads fs filepath)
       = Py.len data
         + Py.len (read_jsonl_warnings json_loads fs filepath None).
Proof.
  intros Hf Hs. unfold get_file_info, read_jsonl, read_jsonl_warnings.
  rewrite Hf, Hs, read_loop_all. cbn [fst snd app info_line_count].
  eexists. split; [reflexivity|]. symmetry. apply len_valid_and_malformed.
Qed.

Lemma get_file_info_counts_records_and_warnings_witness :
  exists data,
    read_jsonl sample_loads (single_file "a.jsonl" reader_lines) "a.jsonl" None
    = Ok data
    /\ info_line_count
         (get_file_info sample_loads (single_file "a.jsonl" reader_lines)
                        "a.jsonl")
       = Py.len data
         + Py.len (read_jsonl_warnings sample_loads
                     (single_file "a.jsonl" reader_lines) "a.jsonl" None).
Proof.
  apply (get_file_info_counts_records_and_warnings
           sample_loads (single_file "a.jsonl" reader_lines) "a.jsonl"
           (file_of reader_lines) []).
  - reflexivity.
  - reflexivity.
Defined.

(** X7. When the first line of the file is a JSON object, the sample keys
    of the probe are the keys of the first record that a read returns. *)
Theorem get_file_info_samples_first_record
        (json_loads : string -> option Json) (fs : filesystem)
        (filepath : string) (f : file) (first : string) (rest : list string)
        (fields : list (string * Json)) :
  fs filepath = Some f ->
  f_lines f = first :: rest ->
  nonblank first = true ->
  json_loads first = Some (JObject fields) ->
  info_sample_keys (get_file_info json_loads fs filepath) = map fst fields
  /\ exists more,
       read_jsonl json_loads fs filepath None = Ok (JObject fields :: more).
Proof.
  intros Hf Hlines Hnb Hload. unfold get_file_info, read_jsonl, sample_first_line.
  rewrite Hf, Hlines. cbn [hd]. rewrite Hnb, Hload. split; [reflexivity|].
  rewrite read_loop_all, valid_records_cons. unfold decode_line.
  rewrite Hnb, Hload. now eexists.
Qed.

Lemma get_file_info_samples_first_record_witness :
  let lines := [line_id 7; line_bad; line_id 8] in
  info_sample_keys (get_file_info sample_loads (single_file "a.jsonl" lines)
                                  "a.jsonl") = ["id"]
  /\ exists more,
       read_jsonl sample_loads (single_file "a.jsonl" lines) "a.jsonl" None
       = Ok (id_record 7 :: more).
Proof.
  intros lines.
  apply (get_file_info_samples_first_record
           sample_loads (single_file "a.jsonl" lines) "a.jsonl"
           (file_of lines) (line_id 7) [line_bad; line_id 8]
           [("id", JInt 7)]); reflexivity.
Defined.

(** X8. The probe samples the first line, not the first record: when the
    first line is blank it reports no sample key, whatever follows, and
    still counts the non-blank lines. *)
Theorem get_file_info_blank_first_line
        (json_loads : string -> option Json) (fs : filesystem)
        (filepath : string) (f : file) (first : string) (rest : list string) :
  fs filepath = Some f ->
  f_lines f = first :: rest ->
  nonblank first = false ->
  info_sample_keys (get_file_info json_loads fs filepath) = []
  /\ info_line_count (get_file_info json_loads fs filepath)
     = count_nonblank rest.
Proof.
  intros Hf Hlines Hnb. unfold get_file_info, sample_first_line, count_nonblank.
  rewrite Hf, Hlines. cbn [hd filter]. now rewrite Hnb.
Qed.

Lemma get_file_info_blank_first_line_witness :
  let lines := [newline; line_id 7; line_id 8] in
  info_sample_keys (get_file_info sample_loads (single_file "a.jsonl" lines)
                                  "a.jsonl") = []
  /\ info_line_count (get_file_info sample_loads (single_file "a.jsonl" lines)
                                    "a.jsonl")
     = count_nonblank [line_id 7; line_id 8].
Proof.
  intros lines.
  apply (get_file_info_blank_first_line
           sample_loads (single_file "a.jsonl" lines) "a.jsonl"
           (file_of lines) newline [line_id 7; line_id 8]); reflexivity.
Defined.

(** * More properties of the uploader *)

(** Every computation either returns or raises. *)
Lemma wp_any {A : Type} (m : M A) (s : state) :
  wp m (fun _ _ => True) (fun _ _ => True) s.
Proof. unfold wp. now destruct (m s) as [[a|err] s']. Qed.

(** ** What is stored has been accepted *)

Section StoredInvariant.

Variable json_loads : string -> option Json.
Variable e : env.
Variables (batch_size delay_seconds : Z) (s3_prefix : string).
Variables (total_lines num_batches : Z) (filename timestamp : string).

(** A property of the list of stored batches that holds of one more batch
    whenever the store accepts it. *)
Variable P : list (string * list Json) -> Prop.
Hypothesis P_put :
  forall u k r, P u -> env_put_ok e k r = true -> P (u ++ [(k, r)]).

#[local] Abbreviation Stored := (fun s : state => P (uploads (out s))).

Lemma wp_upload_dataframe_accepted (k : string) (r : list Json)
      (Q : unit -> state -> Prop) X s :
  X UploadError s ->
  (env_put_ok e k r = true -> Q tt (with_event s (Put k r))) ->
  wp (upload_dataframe e k r) Q X s.
Proof.
  intros HX HQ. unfold upload_dataframe.
  destruct (env_put_ok e k r); [apply wp_emit; now apply HQ|now apply wp_raise].
Qed.

Ltac stored_solve :=
  wp_simpl; trace_simpl; try assumption; try (apply P_put; assumption).

Lemma countdown_stored (n : nat) (s : state) :
  Stored s ->
  wp (countdown n) (fun _ => Stored) (fun _ => Stored) s.
Proof.
  revert s. induction n as [|n IH]; intros s H.
  - now apply wp_ret.
  - cbn [countdown]. wp_steps. apply wp_tick; [stored_solve|intros k].
    wp_steps. apply IH. stored_solve.
Qed.

Lemma upload_full_batch_stored (s : state) :
  Stored s ->
  wp (upload_full_batch e delay_seconds s3_prefix total_lines num_batches
                        filename timestamp)
     (fun _ => Stored) (fun _ => Stored) s.
Proof.
  intros H. unfold upload_full_batch. wp_steps.
  apply wp_true_div; intros Htl; [stored_solve|]. wp_steps.
  apply wp_tick; [stored_solve|intros k1]. wp_steps.
  apply wp_upload_dataframe_accepted; [stored_solve|intros Hok]. wp_steps.
  apply wp_tick; [stored_solve|intros k2]. wp_steps.
  destruct (line_num s <? total_lines).
  - wp_steps. apply countdown_stored. stored_solve.
  - wp_steps. stored_solve.
Qed.

Lemma process_line_stored (line : string) (s : state) :
  Stored s ->
  wp (process_line json_loads e batch_size delay_seconds s3_prefix
                   total_lines num_batches filename timestamp line)
     (fun _ => Stored) (fun _ => Stored) s.
Proof.
  intros H.
  assert (Hcheck : forall s0, Stored s0 ->
            wp (check_batch e batch_size delay_seconds s3_prefix total_lines
                            num_batches filename timestamp)
               (fun _ => Stored) (fun _ => Stored) s0).
  { intros s0 H0. unfold check_batch. wp_steps.
    destruct (batch_size <=? Py.len (batch_data s0));
      [now apply upload_full_batch_stored|now apply wp_ret]. }
  unfold process_line. destruct (nonblank line).
  - destruct (json_loads line) as [v|]; [|now apply wp_ret].
    wp_steps. apply Hcheck. stored_solve.
  - now apply Hcheck.
Qed.

Lemma scan_stored (lines : list string) (s : state) :
  Stored s ->
  wp (scan json_loads e batch_size delay_seconds s3_prefix total_lines
           num_batches filename timestamp lines)
     (fun _ => Stored) (fun _ => Stored) s.
Proof.
  revert s. induction lines as [|line rest IH]; intros s H.
  - now apply wp_ret.
  - cbn [scan]. wp_steps. apply wp_tick; [stored_solve|intros k]. wp_steps.
    eapply wp_mono; [apply process_line_stored; stored_solve| |auto].
    intros [] s' H'. wp_steps. now apply IH.
Qed.

Lemma upload_final_batch_stored (s : state) :
  Stored s ->
  wp (upload_final_batch e s3_prefix num_batches filename timestamp)
     (fun _ => Stored) (fun _ => Stored) s.
Proof.
  intros H. unfold upload_final_batch. wp_steps.
  destruct (batch_data s) as [|r0 rs] eqn:Hb; [now apply wp_ret|].
  wp_steps. apply wp_tick; [stored_solve|intros k1]. wp_steps.
  apply wp_upload_dataframe_accepted; [stored_solve|intros Hok]. wp_steps.
  apply wp_tick; [stored_solve|intros k2]. wp_steps. stored_solve.
Qed.

Lemma try_body_stored (lines : list string) (s : state) :
  Stored s ->
  wp (try_body json_loads e batch_size delay_seconds s3_prefix total_lines
               num_batches filename timestamp lines)
     (fun _ => Stored) (fun _ => Stored) s.
Proof.
  intros H. unfold try_body. wp_steps.
  eapply wp_mono; [now apply scan_stored| |auto].
  intros [] s1 H1. wp_steps.
  eapply wp_mono; [now apply upload_final_batch_stored| |auto].
  intros [] s2 H2. cbn beta. unfold summary. wp_steps.
  apply wp_true_div; intros Hb; wp_steps; stored_solve.
Qed.

End StoredInvariant.

(** The batches that a run stores have all been accepted by the store. *)
Lemma upload_in_batches_stores_accepted
      (json_loads : string -> option Json) (e : env) (filepath : string)
      (batch_size delay_seconds : Z) (s3_prefix : string) :
  Forall (fun kr => env_put_ok e (fst kr) (snd kr) = true)
         (uploads (snd (upload_in_batches json_loads e filepath batch_size
                                          delay_seconds s3_prefix))).
Proof.
  unfold upload_in_batches.
  destruct (env_fs e filepath) as [f|]; [|constructor].
  destruct (batch_size =? 0); [constructor|].
  destruct (negb _); [constructor|].
  match goal with
  | |- context [try_body ?a ?b ?c ?d ?p ?tl ?nb ?fn ?ts ?ls ?s] =>
      pose proof (try_body_stored a b c d p tl nb fn ts
                    (Forall (fun kr => env_put_ok e (fst kr) (snd kr) = true))
                    (fun u k r Hu Hok =>
                       proj2 (Forall_app _ u [(k, r)])
                             (conj Hu (Forall_cons (k, r) Hok (Forall_nil _))))
                    ls s (Forall_nil _)) as H;
      unfold wp in H;
      destruct (try_body a b c d p tl nb fn ts ls s) as [[[]|err] s']
  end.
  - cbn [snd]. now rewrite uploads_app.
  - destruct err; cbn [snd]; rewrite !uploads_app; cbn [uploads app];
      now rewrite app_nil_r.
Qed.

(** X9. Nothing is stored unless the file exists, the batch size is not
    zero and the operator's answer, stripped and lowered, is [y]. *)
Theorem upload_only_after_confirmation
        (json_loads : string -> option Json) (e : env) (filepath : string)
        (batch_size delay_seconds : Z) (s3_prefix : string) :
  uploads (snd (upload_in_batches json_loads e filepath batch_size
                                  delay_seconds s3_prefix)) <> [] ->
  (exists f, env_fs e filepath = Some f)
  /\ batch_size <> 0
  /\ Py.lower (Py.strip (env_input e)) = "y".
Proof.
  unfold upload_in_batches.
  destruct (env_fs e filepath) as [f|]; [|intros H; now destruct H].
  destruct (Z.eqb_spec batch_size 0) as [|Hb]; [intros H; now destruct H|].
  destruct (String.eqb_spec (Py.lower (Py.strip (env_input e))) "y")
    as [Hyes|Hno]; cbn [negb]; [|intros H; now destruct H].
  intros _. split; [now exists f|]. now split.
Qed.

Lemma upload_only_after_confirmation_witness :
  let e := sample_env sample_path [line_id 1] None in
  uploads (snd (upload_in_batches sample_loads e sample_path 1 0 "raw/data/"))
  <> []
  /\ (exists f, env_fs e sample_path = Some f)
  /\ 1 <> 0
  /\ Py.lower (Py.strip (env_input e)) = "y".
Proof.
  intros e.
  assert (H : uploads (snd (upload_in_batches sample_loads e sample_path 1 0
                                              "raw/data/")) <> [])
    by (vm_compute; intros H; discriminate H).
  split; [exact H|].
  apply (upload_only_after_confirmation sample_loads e sample_path 1 0
                                        "raw/data/").
  exact H.
Defined.

(** X10. There is no retry and no skipping: when the store rejects the
    object of batch number [j], whatever its records, fewer than [j]
    batches are stored. *)
Theorem upload_stops_at_rejected_batch
        (json_loads : string -> option Json) (e : env) (filepath : string)
        (batch_size delay_seconds : Z) (s3_prefix : string) (j : Z) :
  1 <= j ->
  (forall r, env_put_ok e (s3_key_of s3_prefix (filename_of filepath)
                                     (env_now e) j) r = false) ->
  Py.len (uploads (snd (upload_in_batches json_loads e filepath batch_size
                                          delay_seconds s3_prefix))) < j.
Proof.
  intros Hj Hrej.
  pose proof (upload_in_batches_numbered json_loads e filepath batch_size
                delay_seconds s3_prefix) as Hnum.
  pose proof (upload_in_batches_stores_accepted json_loads e filepath
                batch_size delay_seconds s3_prefix) as Hacc.
  set (t := snd (upload_in_batches json_loads e filepath batch_size
                                   delay_seconds s3_prefix)) in *.
  destruct (Z.ltb_spec (Py.len (uploads t)) j) as [Hlt|Hge]; [exact Hlt|].
  exfalso. unfold numbered, uploaded_keys in Hnum.
  assert (Hin : In (s3_key_of s3_prefix (filename_of filepath) (env_now e) j)
                   (map fst (uploads t))).
  { rewrite Hnum. apply in_map. unfold batch_numbers.
    apply in_map_iff. exists (Z.to_nat j). split; [lia|].
    apply in_seq. unfold Py.len in Hge. lia. }
  apply in_map_iff in Hin as ([k r] & Hk & Hkr). cbn [fst] in Hk. subst k.
  rewrite Forall_forall in Hacc. specialize (Hacc _ Hkr). cbn [fst snd] in Hacc.
  rewrite Hrej in Hacc. discriminate Hacc.
Qed.

Lemma upload_stops_at_rejected_batch_witness :
  let lines := [line_id 1; line_id 2; line_id 3; line_id 4; line_id 5] in
  let e := mkEnv (single_file sample_path lines) "y" "20240101_120000"
                 (fun k _ => negb (k =? sample_key 2)%string) None in
  1 <= 2
  /\ Py.len (uploads (snd (upload_in_batches sample_loads e sample_path 2 0
                                             "raw/data/"))) < 2.
Proof.
  intros lines e. split; [lia|].
  apply (upload_stops_at_rejected_batch sample_loads e sample_path 2 0
                                        "raw/data/" 2).
  - lia.
  - intros r. vm_compute. reflexivity.
Defined.

(** The count that line 55 projects is the ceiling of the quotient. *)
Lemma projected_batches_is_ceiling (total_lines batch_size : Z) :
  1 <= batch_size -> 0 <= total_lines ->
  total_lines / batch_size + (if 0 <? total_lines mod batch_size then 1 else 0)
  = spec_batch_count total_lines batch_size.
Proof.
  intros Hb Hn. unfold spec_batch_count.
  pose proof (Z.div_mod total_lines batch_size ltac:(lia)) as Hdm.
  pose proof (Z.mod_pos_bound total_lines batch_size ltac:(lia)) as Hmod.
  destruct (Z.eqb_spec total_lines 0) as [->|Hn0]; [reflexivity|].
  destruct (Z.ltb_spec 0 (total_lines mod batch_size)) as [Hr|Hr].
  - replace (total_lines + batch_size - 1)
      with ((total_lines / batch_size + 1) * batch_size
            + (total_lines mod batch_size - 1)) by lia.
    now rewrite div_full by lia.
  - replace (total_lines + batch_size - 1)
      with (total_lines / batch_size * batch_size + (batch_size - 1)) by lia.
    rewrite div_full by lia. lia.
Qed.

Lemma spec_batch_count_mono (n n' b : Z) :
  1 <= b -> 0 <= n <= n' -> spec_batch_count n b <= spec_batch_count n' b.
Proof.
  intros Hb Hn. unfold spec_batch_count.
  destruct (Z.eqb_spec n 0) as [->|Hn0].
  - destruct (n' =? 0); [lia|]. apply Z.div_pos; lia.
  - destruct (Z.eqb_spec n' 0) as [|_]; [lia|].
    apply Z.div_le_mono; lia.
Qed.

(** X11. When the first line of the file is blank or a JSON object, the
    number of batches announced before the confirmation is never below
    the number that an undisturbed run stores, and it is that number when
    every non-blank line decodes. *)
Theorem upload_plan_covers_batches
        (json_loads : string -> option Json) (e : env) (filepath : string)
        (f : file) (keys : list string) (batch_size delay_seconds : Z)
        (s3_prefix : string) :
  env_fs e filepath = Some f ->
  1 <= batch_size ->
  Py.lower (Py.strip (env_input e)) = "y" ->
  env_sigint e = None ->
  (forall k r, env_put_ok e k r = true) ->
  sample_first_line json_loads (f_lines f) = Ok keys ->
  let t := snd (upload_in_batches json_loads e filepath batch_size
                                  delay_seconds s3_prefix) in
  exists planned,
    nth_error t 1 = Some (Printed (MsgPlan planned))
    /\ Py.len (uploads t) <= planned
    /\ ((forall line, In line (f_lines f) -> nonblank line = true ->
                      json_loads line <> None) ->
        planned = Py.len (uploads t)).
Proof.
  intros Hf Hb Hyes Hsig Hput Hsample t.
  pose proof (get_file_info_counts_when_sampled json_loads (env_fs e) filepath
                f keys Hf Hsample) as Hinfo.
  pose proof (len_valid_records_le_count_nonblank json_loads (f_lines f)) as Hle.
  pose proof (len_nonneg (valid_records json_loads (f_lines f))) as Hn0.
  destruct (upload_in_batches_quiet json_loads e filepath f batch_size
              delay_seconds s3_prefix Hf Hb Hyes Hsig Hput)
    as (_ & _ & _ & Hc & _).
  { rewrite Hinfo. cbn [info_line_count]. lia. }
  fold t in Hc. rewrite Hc.
  exists (spec_batch_count (count_nonblank (f_lines f)) batch_size).
  split; [|split].
  - subst t. unfold upload_in_batches.
    rewrite Hf, Hyes, Hinfo. cbn [info_line_count].
    destruct (Z.eqb_spec batch_size 0) as [|_]; [lia|].
    cbn [String.eqb Ascii.eqb Bool.eqb negb].
    rewrite projected_batches_is_ceiling by lia.
    now destruct (try_body _ _ _ _ _ _ _ _ _ _ _) as [[[]|[]] s].
  - apply spec_batch_count_mono; lia.
  - intros Hall.
    now rewrite (count_nonblank_all_decode json_loads (f_lines f) Hall).
Qed.

Lemma upload_plan_covers_batches_witness :
  let lines := [line_id 1; line_bad; line_bad; line_id 2] in
  let t := snd (sample_run lines None 2 0) in
  exists planned,
    nth_error t 1 = Some (Printed (MsgPlan planned))
    /\ Py.len (uploads t) <= planned
    /\ ((forall line, In line lines -> nonblank line = true ->
                      sample_loads line <> None) ->
        planned = Py.len (uploads t)).
Proof.
  intros lines.
  apply (upload_plan_covers_batches
           sample_loads (sample_env sample_path lines None) sample_path
           (file_of lines) ["id"] 2 0 "raw/data/").
  - reflexivity.
  - lia.
  - reflexivity.
  - reflexivity.
  - reflexivity.
  - vm_compute. reflexivity.
Defined.
